(** * Dynamic level-of-detail control of the Voyager explorer

    A shallow embedding of the two level-of-detail passes of the viewer:

    - the budget-aware pass inlined in [CVOrbitNavigation.tick]
      (source/client/components/CVAnnotations.ts, lines 378-530), and
    - the rank-based pass of [CVDerivativesController.tock]
      (source/client/story/ui/ArticlesTaskView.ts, lines 183-248).

    JavaScript numbers are embedded as exact rationals ([Q]): weights,
    thresholds and NDC coordinates.  Texture sizes are integers far below
    2^53 and are embedded as [Z].  The passes are stated on finite
    numbers; the scorer, the classifier and the apply step are given a
    second time on numbers with infinities and NaN (module [JS]), for the
    empty bounding box of a model that is not loaded.

    Rationals are exact, and the rounding of the code's binary64 numbers is
    not modelled: [0.10 + 0.02] is 0.12 here and 0.12000000000000001 in the
    code, [1 / (1 + d)] is below 1 here for every positive [d] and exactly
    1 in the code when [d] is under 2^-53, the last line of [depthWeight]
    is below 1 here and exactly 1 in the code for a depth beyond about
    4e16, and a product of positive factors is positive here while it
    underflows to 0 in the code under 5e-324. *)

From Stdlib Require Import ZArith QArith Qminmax Qabs List Lia Lqa Bool.
From Stdlib Require Import Sorting.Sorted Sorting.Permutation.
From Stdlib Require Strings.String Strings.Ascii.
Import ListNotations.

Open Scope Q_scope.

(** ** Numbers *)

(** [a < b] on JavaScript numbers, as a boolean. *)
Definition Qltb (a b : Q) : bool :=
  match a ?= b with Lt => true | _ => false end.

(** [Math.max] and [Math.min] with two arguments; the three-argument calls of
    the source are nested. *)
Definition Math_max (a b : Q) : Q := Qmax a b.
Definition Math_min (a b : Q) : Q := Qmin a b.
Definition Math_max3 (a b c : Q) : Q := Math_max (Math_max a b) c.

(** ** Quality tiers *)

(** Modelled from the spec: the declaration of the numeric enum
    [EDerivativeQuality] (client/schema/model) is not part of the sources at
    hand.  The tiers are those of the spec's data model, lowest detail
    first, with the numeric values a TypeScript enum gives them. *)
Inductive EDerivativeQuality : Set := Thumb | Low | Medium | High.

Definition qval (q : EDerivativeQuality) : Z :=
  match q with Thumb => 0 | Low => 1 | Medium => 2 | High => 3 end%Z.

Definition quality_eqb (a b : EDerivativeQuality) : bool := (qval a =? qval b)%Z.
Definition quality_leb (a b : EDerivativeQuality) : bool := (qval a <=? qval b)%Z.
Definition quality_ltb (a b : EDerivativeQuality) : bool := (qval a <? qval b)%Z.

Definition quality_le (a b : EDerivativeQuality) : Prop := (qval a <= qval b)%Z.
Definition quality_lt (a b : EDerivativeQuality) : Prop := (qval a < qval b)%Z.

(** [q--] on a tier above [Thumb]; every use in the source is guarded by
    [EDerivativeQuality.Thumb < q]. *)
Definition decrement (q : EDerivativeQuality) : EDerivativeQuality :=
  match q with High => Medium | Medium => Low | Low => Thumb | Thumb => Thumb end.

(** ** Vectors and boxes (three.js [Vector3] and [Box3]) *)

Record Vector3 : Set := mkVector3 { x : Q; y : Q; z : Q }.

Record Box3 : Set := mkBox3 { min : Vector3; max : Vector3 }.

(** [Box3.expandByPoint]: component-wise minimum and maximum. *)
Definition expandByPoint (b : Box3) (p : Vector3) : Box3 :=
  {| min := mkVector3 (Math_min (x (min b)) (x p)) (Math_min (y (min b)) (y p))
                      (Math_min (z (min b)) (z p));
     max := mkVector3 (Math_max (x (max b)) (x p)) (Math_max (y (max b)) (y p))
                      (Math_max (z (max b)) (z p)) |}.

(** [Box3.getSize] of a non-empty box. *)
Definition getSize (b : Box3) : Vector3 :=
  mkVector3 (x (max b) - x (min b)) (y (max b) - y (min b)) (z (max b) - z (min b)).

(** [Box3.getCenter] of a non-empty box. *)
Definition getCenter (b : Box3) : Vector3 :=
  mkVector3 ((x (min b) + x (max b)) / 2) ((y (min b) + y (max b)) / 2)
            ((z (min b) + z (max b)) / 2).

(** The eight corners, in the order of the array literal of the source. *)
Definition corners (b : Box3) : list Vector3 :=
  [ mkVector3 (x (min b)) (y (min b)) (z (min b));
    mkVector3 (x (max b)) (y (min b)) (z (min b));
    mkVector3 (x (max b)) (y (max b)) (z (min b));
    mkVector3 (x (max b)) (y (max b)) (z (max b));
    mkVector3 (x (min b)) (y (max b)) (z (max b));
    mkVector3 (x (min b)) (y (min b)) (z (max b));
    mkVector3 (x (max b)) (y (min b)) (z (max b));
    mkVector3 (x (min b)) (y (max b)) (z (min b)) ].

(** [box.makeEmpty()] followed by [expandByPoint] on each projected corner.
    The first expansion of an empty box yields the box reduced to that
    point; [project] is [Vector3.project] for the active camera. *)
Definition projectBox (project : Vector3 -> Vector3) (b : Box3) : Box3 :=
  match map project (corners b) with
  | [] => b
  | p :: rest => fold_left expandByPoint rest (mkBox3 p p)
  end.

(** [relSize = (point.x * point.y) / 4] after [box.getSize(point)]. *)
Definition relSizeOf (b : Box3) : Q :=
  (x (getSize b) * y (getSize b)) / 4.

(** [depthWeight], the same text in both files. *)
Definition depthWeight (zmin zmax : Q) : Q :=
  if Qltb zmax (-1) || Qltb 1 zmin then 0
  else if Qltb (-1) zmin && Qltb zmax 1 then 1
  else 1 - 2 / (Math_max 1 (zmax - 1) - Math_min (-1) (zmin + 1)).

(** ** Models and their current quality *)

(** A [CVModel2] component as the passes see it: its identity, its bounding
    box in world space (local box, unit scale and transforms applied) and
    the derivative collaborator.  [select m q] is the quality of the
    derivative returned by [m.derivatives.select(EDerivativeUsage.Web3D, q)],
    [None] when it returns nothing. *)
Record CVModel2 : Set := mkModel {
  name : nat;
  boundingBox : Box3;
  select : EDerivativeQuality -> option EDerivativeQuality
}.

(** [model.ins.quality.value] for every model, keyed by identity. *)
Definition Qualities : Set := nat -> EDerivativeQuality.

(** [model.ins.quality.setValue(q)]. *)
Definition setValue (s : Qualities) (m : CVModel2) (q : EDerivativeQuality) : Qualities :=
  fun n => if Nat.eqb n (name m) then q else s n.

(** [Array.prototype.sort] is stable: with a comparator that orders by one
    key the result is the stable insertion sort.  [keep a b] says that the
    comparator called on [(a, b)] is not positive. *)
Section Sort.
Context {A : Type} (keep : A -> A -> bool).

Fixpoint insertSorted (a : A) (l : list A) : list A :=
  match l with
  | [] => [a]
  | b :: rest => if keep a b then a :: l else b :: insertSorted a rest
  end.

Definition sort (l : list A) : list A := fold_right insertSorted [] l.
End Sort.

(** ** The pass of [CVOrbitNavigation.tick] *)

Module OrbitNavigation.

Definition sizeMap (q : EDerivativeQuality) : Z :=
  match q with
  | Thumb => 512 * 512
  | Low => 1024 * 1024
  | Medium => 2048 * 2048
  | High => 4096 * 4096
  end%Z.

Definition maxCenterWeight (b : Box3) : Q :=
  let dx := Math_max3 (- x (max b)) (x (min b)) 0 in
  let dy := Math_max3 (- y (max b)) (y (min b)) 0 in
  1 / (1 + dx + dy).

Definition hyst : Q := 0.02.

Definition steps : list (Q * EDerivativeQuality) :=
  [ (0.03, Thumb); (0.10, Low); (0.3, Medium) ].

(** The value of [size] at [return relSize < size] in the callback of
    [steps.find]. *)
Definition stepSize (current : EDerivativeQuality) (step : Q * EDerivativeQuality) : Q :=
  let '(size, q) := step in
  if quality_leb current q then size + hyst else size.

Definition getQuality (current : EDerivativeQuality) (relSize : Q) : EDerivativeQuality :=
  match find (fun step => Qltb relSize (stepSize current step)) steps with
  | Some (_, q) => q
  | None => High
  end.

Record Entry : Set := mkEntry {
  model : CVModel2;
  weight : Q;
  relSize : Q;
  quality : EDerivativeQuality
}.

Definition boxWeight (box : Box3) : Q :=
  relSizeOf box * maxCenterWeight box * depthWeight (z (min box)) (z (max box)).

(** The callback of [getGraphComponents(CVModel2).map], for a model whose
    projected corners are finite; [JS.tickWeight] and [JS.getQuality] give
    the weight and the proposal when they are not. *)
Definition entryOf (project : Vector3 -> Vector3) (s : Qualities) (m : CVModel2) : Entry :=
  let box := projectBox project (boundingBox m) in
  let relSize := relSizeOf box in
  let weight := boxWeight box in
  let current := s (name m) in
  mkEntry m weight relSize (getQuality current weight).

(** [models.sort((a, b) => a.weight - b.weight)]. *)
Definition ascending (a b : Entry) : bool := Qle_bool (weight a - weight b) 0.

(** The condition of the [while] loop. *)
Definition overBudget (reserved texSize : Z) (q : EDerivativeQuality) : bool :=
  ((16384 * 16384 - reserved <? texSize + sizeMap q)%Z && quality_ltb Thumb q)%bool.

(** The [while] loop; [fuel] bounds the number of iterations. *)
Fixpoint downgrade (fuel : nat) (reserved texSize : Z) (q : EDerivativeQuality)
  : EDerivativeQuality :=
  match fuel with
  | O => q
  | S fuel' =>
      if overBudget reserved texSize q
      then downgrade fuel' reserved texSize (decrement q)
      else q
  end.

(** Three decrements lead from any tier to [Thumb]. *)
Definition tiersAboveThumb : nat := 3.

(** The state of the allocation loop: [reserved], [texSize] and the
    entries already processed, in order. *)
Record Alloc : Set := mkAlloc {
  reserved : Z;
  texSize : Z;
  assigned : list Entry
}.

(** One call of the [models.forEach] callback.  The counter [downgrades],
    which only feeds a debug message, is left out. *)
Definition allocStep (st : Alloc) (m : Entry) : Alloc :=
  let reserved' := (reserved st - 512 * 512)%Z in
  let q := downgrade tiersAboveThumb reserved' (texSize st) (quality m) in
  mkAlloc reserved' (texSize st + sizeMap q)%Z
          (assigned st ++ [mkEntry (model m) (weight m) (relSize m) q]).

Definition initialReserved (n : nat) : Z :=
  (2 * Z.of_nat n * 512 * 512 + 1024 * 1024 * 4)%Z.

Definition allocate (models : list Entry) : Alloc :=
  fold_left allocStep models (mkAlloc (initialReserved (length models)) 0 []).

(** One iteration of the final [for ... of models] loop. *)
Definition applyEntry (s : Qualities) (e : Entry) : Qualities :=
  let current := s (name (model e)) in
  if quality_eqb (quality e) current then s
  else if (quality_ltb current (quality e) && Qeq_bool (weight e) 0)%bool then s
  else
    match select (model e) (quality e) with
    | Some best =>
        if negb (quality_eqb best current) then setValue s (model e) best else s
    | None => s
    end.

(** The level-of-detail block of [tick], run when the camera has moved. *)
Definition tick (project : Vector3 -> Vector3) (components : list CVModel2)
           (s : Qualities) : Qualities :=
  let models := sort ascending (map (entryOf project s) components) in
  fold_left applyEntry (assigned (allocate models)) s.

End OrbitNavigation.

(** ** The pass of [CVDerivativesController.tock] *)

Module DerivativesController.

Definition maxCenterWeight (b : Box3) : Q :=
  let dxy := Math_max3 (- x (max b)) (x (min b)) 0
             + Math_max3 (- y (max b)) (y (min b)) 0 in
  1 / (1 + dxy).

Definition clampSize (size : Q) : Q := Math_min size 1.

Record Entry : Set := mkEntry {
  model : CVModel2;
  relSize : Q;
  weight : Q
}.

Definition boxWeight (box : Box3) : Q :=
  clampSize (relSizeOf box) * maxCenterWeight box
  * depthWeight (z (min box)) (z (max box)).

Definition entryOf (project : Vector3 -> Vector3) (m : CVModel2) : Entry :=
  let ndcBox := projectBox project (boundingBox m) in
  let relSize := relSizeOf ndcBox in
  mkEntry m relSize (boxWeight ndcBox).

(** [.sort((a, b) => b.weight - a.weight)]. *)
Definition descending (a b : Entry) : bool := Qle_bool (weight b - weight a) 0.

(** The tier chosen for loop index [i]. *)
Definition rankQuality (i : nat) : EDerivativeQuality :=
  if (i <? 2)%nat then High
  else if (i <? 5)%nat then Medium
  else if (i <? 10)%nat then Low
  else Thumb.

(** The body of the [for] loop at index [i]; the state is the qualities
    and the flag [changed]. *)
Definition tockStep (i : nat) (e : Entry) (st : Qualities * bool) : Qualities * bool :=
  let current := fst st (name (model e)) in
  let quality := rankQuality i in
  if quality_eqb quality current then st
  else
    match select (model e) quality with
    | Some best =>
        if negb (quality_eqb best current)
        then (setValue (fst st) (model e) best, true)
        else st
    | None => st
    end.

Fixpoint tockLoop (i : nat) (models : list Entry) (st : Qualities * bool)
  : Qualities * bool :=
  match models with
  | [] => st
  | e :: rest => tockLoop (S i) rest (tockStep i e st)
  end.

(** [tock]: [camera] is the projection of the active camera, [None] when
    the scene has no camera component. *)
Definition tock (enabled : bool) (camera : option (Vector3 -> Vector3))
           (components : list CVModel2) (s : Qualities) : Qualities * bool :=
  match enabled, camera with
  | true, Some project =>
      tockLoop 0 (sort descending (map (entryOf project) components)) (s, false)
  | _, _ => (s, false)
  end.

End DerivativesController.

(** ** Numbers that are not finite *)

(** The scorer on JavaScript numbers with their infinities and NaN: an
    unloaded model has an empty bounding box ([min] at +Infinity, [max] at
    -Infinity), and [Vector3.project] turns an infinite coordinate into NaN.
    Finite values are exact rationals and zero carries no sign; no division
    of the scorer has a zero divisor. *)
Module JS.

Inductive Number : Set := Finite (q : Q) | PosInfinity | NegInfinity | NaN.

(** [a < b]: false as soon as one side is NaN. *)
Definition lt (a b : Number) : bool :=
  match a, b with
  | Finite p, Finite q => Qltb p q
  | Finite _, PosInfinity => true
  | NegInfinity, Finite _ => true
  | NegInfinity, PosInfinity => true
  | _, _ => false
  end.

(** [Math.max] and [Math.min]: NaN as soon as one argument is NaN. *)
Definition Math_max (a b : Number) : Number :=
  match a, b with
  | NaN, _ | _, NaN => NaN
  | PosInfinity, _ | _, PosInfinity => PosInfinity
  | NegInfinity, c | c, NegInfinity => c
  | Finite p, Finite q => Finite (Qmax p q)
  end.

Definition Math_min (a b : Number) : Number :=
  match a, b with
  | NaN, _ | _, NaN => NaN
  | NegInfinity, _ | _, NegInfinity => NegInfinity
  | PosInfinity, c | c, PosInfinity => c
  | Finite p, Finite q => Finite (Qmin p q)
  end.

Definition Math_max3 (a b c : Number) : Number := Math_max (Math_max a b) c.

(** Unary minus. *)
Definition neg (a : Number) : Number :=
  match a with
  | Finite p => Finite (- p)
  | PosInfinity => NegInfinity
  | NegInfinity => PosInfinity
  | NaN => NaN
  end.

(** [a + b]: the sum of two opposite infinities is NaN. *)
Definition add (a b : Number) : Number :=
  match a, b with
  | NaN, _ | _, NaN => NaN
  | Finite p, Finite q => Finite (p + q)
  | PosInfinity, NegInfinity | NegInfinity, PosInfinity => NaN
  | PosInfinity, _ | _, PosInfinity => PosInfinity
  | NegInfinity, _ | _, NegInfinity => NegInfinity
  end.

Definition sub (a b : Number) : Number := add a (neg b).

(** An infinity of the sign of [p]; NaN when [p] is zero. *)
Definition signed (p : Q) (positive negative : Number) : Number :=
  if Qltb 0 p then positive else if Qltb p 0 then negative else NaN.

(** [a * b]: zero times an infinity is NaN. *)
Definition mul (a b : Number) : Number :=
  match a, b with
  | NaN, _ | _, NaN => NaN
  | Finite p, Finite q => Finite (p * q)
  | Finite p, PosInfinity | PosInfinity, Finite p => signed p PosInfinity NegInfinity
  | Finite p, NegInfinity | NegInfinity, Finite p => signed p NegInfinity PosInfinity
  | PosInfinity, PosInfinity | NegInfinity, NegInfinity => PosInfinity
  | PosInfinity, NegInfinity | NegInfinity, PosInfinity => NegInfinity
  end.

(** [a / b]: a finite number over an infinity is zero, an infinity over an
    infinity and zero over zero are NaN. *)
Definition div (a b : Number) : Number :=
  match a, b with
  | NaN, _ | _, NaN => NaN
  | Finite p, Finite q =>
      if Qeq_bool q 0 then signed p PosInfinity NegInfinity else Finite (p / q)
  | Finite _, _ => Finite 0
  | PosInfinity, Finite q => if Qltb q 0 then NegInfinity else PosInfinity
  | NegInfinity, Finite q => if Qltb q 0 then PosInfinity else NegInfinity
  | _, _ => NaN
  end.

(** [!a]: zero and NaN are the numbers that convert to [false]. *)
Definition falsy (a : Number) : bool :=
  match a with
  | Finite p => Qeq_bool p 0
  | NaN => true
  | _ => false
  end.

Record Vector3 : Set := mkVector3 { x : Number; y : Number; z : Number }.

Record Box3 : Set := mkBox3 { min : Vector3; max : Vector3 }.

(** [Box3.makeEmpty]. *)
Definition makeEmpty : Box3 :=
  mkBox3 (mkVector3 PosInfinity PosInfinity PosInfinity)
         (mkVector3 NegInfinity NegInfinity NegInfinity).

(** [Box3.isEmpty]. *)
Definition isEmpty (b : Box3) : bool :=
  lt (x (max b)) (x (min b)) || lt (y (max b)) (y (min b)) || lt (z (max b)) (z (min b)).

Definition expandByPoint (b : Box3) (p : Vector3) : Box3 :=
  {| min := mkVector3 (Math_min (x (min b)) (x p)) (Math_min (y (min b)) (y p))
                      (Math_min (z (min b)) (z p));
     max := mkVector3 (Math_max (x (max b)) (x p)) (Math_max (y (max b)) (y p))
                      (Math_max (z (max b)) (z p)) |}.

(** [Box3.getSize]: the zero vector for an empty box. *)
Definition getSize (b : Box3) : Vector3 :=
  if isEmpty b then mkVector3 (Finite 0) (Finite 0) (Finite 0)
  else mkVector3 (sub (x (max b)) (x (min b))) (sub (y (max b)) (y (min b)))
                 (sub (z (max b)) (z (min b))).

Definition corners (b : Box3) : list Vector3 :=
  [ mkVector3 (x (min b)) (y (min b)) (z (min b));
    mkVector3 (x (max b)) (y (min b)) (z (min b));
    mkVector3 (x (max b)) (y (max b)) (z (min b));
    mkVector3 (x (max b)) (y (max b)) (z (max b));
    mkVector3 (x (min b)) (y (max b)) (z (max b));
    mkVector3 (x (min b)) (y (min b)) (z (max b));
    mkVector3 (x (max b)) (y (min b)) (z (max b));
    mkVector3 (x (min b)) (y (max b)) (z (min b)) ].

(** [box.makeEmpty()], then [expandByPoint] on each projected corner. *)
Definition projectBox (project : Vector3 -> Vector3) (b : Box3) : Box3 :=
  fold_left expandByPoint (map project (corners b)) makeEmpty.

Definition relSizeOf (b : Box3) : Number :=
  div (mul (x (getSize b)) (y (getSize b))) (Finite 4).

(** [maxCenterWeight] of CVOrbitNavigation. *)
Definition maxCenterWeight (b : Box3) : Number :=
  let dx := Math_max3 (neg (x (max b))) (x (min b)) (Finite 0) in
  let dy := Math_max3 (neg (y (max b))) (y (min b)) (Finite 0) in
  div (Finite 1) (add (add (Finite 1) dx) dy).


Definition depthWeight (zmin zmax : Number) : Number :=
  if lt zmax (Finite (-1)) || lt (Finite 1) zmin then Finite 0
  else if lt (Finite (-1)) zmin && lt zmax (Finite 1) then Finite 1
  else sub (Finite 1)
           (div (Finite 2)
                (sub (Math_max (Finite 1) (sub zmax (Finite 1)))
                     (Math_min (Finite (-1)) (add zmin (Finite 1))))).

Definition clampSize (size : Number) : Number := Math_min size (Finite 1).



(** [getQuality]: [relSize < size] fails at every step for NaN. *)
Definition getQuality (current : EDerivativeQuality) (relSize : Number)
  : EDerivativeQuality :=
  match find (fun step => lt relSize (Finite (OrbitNavigation.stepSize current step)))
             OrbitNavigation.steps with
  | Some (_, q) => q
  | None => High
  end.

(** One iteration of the final loop of [tick] on an entry of weight
    [weight] and allocated tier [quality]. *)
Definition applyEntry (s : Qualities) (m : CVModel2) (weight : Number)
           (quality : EDerivativeQuality) : Qualities :=
  let current := s (name m) in
  if quality_eqb quality current then s
  else if (quality_ltb current quality && falsy weight)%bool then s
  else
    match select m quality with
    | Some best =>
        if negb (quality_eqb best current) then setValue s m best else s
    | None => s
    end.


End JS.




(** ** Vocabulary of the statements *)


(** Two boxes of identical width and height. *)
Definition sameSize (a b : Box3) : Prop :=
  x (getSize a) == x (getSize b) /\ y (getSize a) == y (getSize b).

(** Squared distance from the centre of the box to the NDC origin, on screen. *)
Definition centerDistance2 (b : Box3) : Q :=
  x (getCenter b) * x (getCenter b) + y (getCenter b) * y (getCenter b).

(** The centre of [a] is at least as close to the origin as that of [b] on
    each screen axis. *)
Definition closerOnEachAxis (a b : Box3) : Prop :=
  Qabs (x (getCenter a)) <= Qabs (x (getCenter b)) /\
  Qabs (y (getCenter a)) <= Qabs (y (getCenter b)).

(** The camera whose view-projection is the identity. *)
Definition identityCamera (p : Vector3) : Vector3 := p.




(** A unit square centred at (1.05, 1) and one centred at (1.5, 0). *)
Definition squareDiagonal : Box3 :=
  mkBox3 (mkVector3 0.55 0.5 0) (mkVector3 1.55 1.5 0).
Definition squareOnAxis : Box3 :=
  mkBox3 (mkVector3 1 (-0.5) 0) (mkVector3 2 0.5 0).

(** A unit square centred at the origin. *)
Definition squareCentred : Box3 :=
  mkBox3 (mkVector3 (-0.5) (-0.5) 0) (mkVector3 0.5 0.5 0).



(** Weights alternating between [a] and [b] over [n] consecutive frames. *)
Fixpoint oscillate (a b : Q) (n : nat) : list Q :=
  match n with
  | O => []
  | S k => a :: oscillate b a k
  end.

(** The tier proposed at each frame when the tier of one frame is the
    current tier of the next. *)
Fixpoint classifyFrames (current : EDerivativeQuality) (weights : list Q)
  : list EDerivativeQuality :=
  match weights with
  | [] => []
  | w :: rest =>
      let q := OrbitNavigation.getQuality current w in
      q :: classifyFrames q rest
  end.

(** The sum of the pixel costs of the tiers of a list of entries. *)
Definition totalCost (l : list OrbitNavigation.Entry) : Z :=
  fold_right (fun e acc => (OrbitNavigation.sizeMap (OrbitNavigation.quality e) + acc)%Z) 0%Z l.

(** [e] is the entry [m] with a tier between [Thumb] and the tier of [m]. *)
Definition downgradeOf (m e : OrbitNavigation.Entry) : Prop :=
  OrbitNavigation.model e = OrbitNavigation.model m /\
  OrbitNavigation.weight e = OrbitNavigation.weight m /\
  OrbitNavigation.relSize e = OrbitNavigation.relSize m /\
  quality_le Thumb (OrbitNavigation.quality e) /\
  quality_le (OrbitNavigation.quality e) (OrbitNavigation.quality m).

(** The state of the allocation loop before its first iteration, for a
    list of [n] models. *)
Definition allocStart (n : nat) : OrbitNavigation.Alloc :=
  OrbitNavigation.mkAlloc (OrbitNavigation.initialReserved n) 0 [].

(** A collaborator that holds a derivative of every tier, and one that
    holds a single derivative, of tier [High]. *)
Definition exactSelect (q : EDerivativeQuality) : option EDerivativeQuality := Some q.
Definition onlyHigh (q : EDerivativeQuality) : option EDerivativeQuality := Some High.

(** A box covering 31% of the screen and a box covering the screen, both
    centred and inside the depth range. *)
Definition boxWide : Box3 :=
  mkBox3 (mkVector3 (-0.31) (-1) (-0.5)) (mkVector3 0.31 1 0.5).
Definition boxFull : Box3 :=
  mkBox3 (mkVector3 (-1) (-1) (-0.5)) (mkVector3 1 1 0.5).

(** A scene of sixteen models: model 0 has a single derivative, of tier
    [High], and covers 31% of the screen; models 1 to 15 have every
    derivative and cover the screen.  Model 0 starts at [Thumb], the others
    at [High]. *)
Definition sceneModels : list CVModel2 :=
  mkModel 0 boxWide onlyHigh
  :: map (fun n => mkModel n boxFull exactSelect) (seq 1 15).

Definition sceneQualities : Qualities :=
  fun n => if Nat.eqb n 0 then Thumb else High.

(** Every model at [High], and every model at [Thumb]. *)
Definition allHigh : Qualities := fun _ => High.


(** The entries of the scene at its first pass, and a crowd of 505 models
    that all propose [High]. *)
Definition sceneEntries : list OrbitNavigation.Entry :=
  map (OrbitNavigation.entryOf identityCamera sceneQualities) sceneModels.

Definition crowdEntries : list OrbitNavigation.Entry :=
  map (fun n => OrbitNavigation.mkEntry (mkModel n boxFull exactSelect) 1 1 High)
      (seq 0 505).

(** An entry for model 0 of the scene, weight 0 and proposed tier [High],
    and an entry for model 1, proposed tier [Low]. *)
Definition entryInvisible : OrbitNavigation.Entry :=
  OrbitNavigation.mkEntry (mkModel 0 boxWide onlyHigh) 0 0 High.
Definition entryLower : OrbitNavigation.Entry :=
  OrbitNavigation.mkEntry (mkModel 1 boxFull exactSelect) 1 1 Low.

(** The quality of a model after an iteration of the loop of [tock] that
    asks for tier [q]: the collaborator's answer, unless [q] is the current
    tier or there is no answer. *)
Definition settled (m : CVModel2) (current q : EDerivativeQuality) : EDerivativeQuality :=
  if quality_eqb q current then current
  else match select m q with
       | Some best => best
       | None => current
       end.

(** ** Serialisation of [CVOrbitNavigation] (CVAnnotations.ts, lines 106-112
    and 565-616) *)

Module NavigationData.
Import String.

(** The numbers held by the orbit settings: finite values and the two
    infinities used as limits. *)
Inductive JSNumber : Set := Finite (q : Q) | PosInfinity | NegInfinity.

(** An array of numbers; an entry may be [null] ([None]). *)
Definition NumberArray : Set := list (option JSNumber).

(** [_replaceNull]: the loop overwrites each [null] entry in place. *)
Definition _replaceNull (vector : NumberArray) (replacement : JSNumber) : NumberArray :=
  map (fun v => match v with
                | None => Some replacement
                | Some _ => v
                end) vector.

Inductive EViewPreset : Set := Left | Right | Top | Bottom | Front | Back | None_.
Inductive EKeyNavMode : Set := Orbit | Zoom | Pan.

(** The [orbit] member of the navigation data; [pivot] may be missing. *)
Module IOrbit.
Record t : Set := mk {
  orbit : NumberArray;
  offset : NumberArray;
  pivot : option NumberArray;
  minOrbit : NumberArray;
  maxOrbit : NumberArray;
  minOffset : NumberArray;
  maxOffset : NumberArray
}.
End IOrbit.

(** [INavigation]; a member that is [undefined] is [None]. *)
Module INavigation.
Record t : Set := mk {
  type : option string;
  enabled : option bool;
  autoZoom : option bool;
  autoRotation : option bool;
  lightsFollowCamera : option bool;
  orbit : option IOrbit.t
}.
End INavigation.

(** The inputs of the component, but the event [zoomExtents]. *)
Module Ins.
Record t : Set := mk {
  enabled : bool;
  pointerEnabled : bool;
  promptEnabled : bool;
  isInUse : bool;
  preset : EViewPreset;
  lightsFollowCamera : bool;
  autoRotation : bool;
  autoRotationSpeed : JSNumber;
  autoZoom : bool;
  orbit : NumberArray;
  offset : NumberArray;
  pivot : NumberArray;
  minOrbit : NumberArray;
  minOffset : NumberArray;
  maxOrbit : NumberArray;
  maxOffset : NumberArray;
  keyNavActive : EKeyNavMode;
  promptActive : bool
}.
End Ins.

(** [!!v] on a member that is a boolean or [undefined]. *)
Definition notNot (v : option bool) : bool :=
  match v with
  | Some b => b
  | None => false
  end.

Definition num (q : Q) : option JSNumber := Some (Finite q).

(** The object literal used when [data.orbit] is missing. *)
Definition defaultOrbit : IOrbit.t :=
  IOrbit.mk [num (-25); num (-25); num 0]
            [num 0; num 0; num 100]
            None
            [num (-90); Some NegInfinity; Some NegInfinity]
            [num 90; Some PosInfinity; Some PosInfinity]
            [Some NegInfinity; Some NegInfinity; num 0.1]
            [Some PosInfinity; Some PosInfinity; Some PosInfinity].

(** [fromData]: [ins.copyValues] sets the eleven inputs listed and leaves
    the others; [data] is [None] when the argument is missing. *)
Definition fromData (ins : Ins.t) (data : option INavigation.t) : Ins.t :=
  let data :=
    match data with
    | Some d => d
    | None => INavigation.mk None None None None None None
    end in
  let orbit :=
    match INavigation.orbit data with
    | Some o => o
    | None => defaultOrbit
    end in
  Ins.mk (notNot (INavigation.enabled data))
         (Ins.pointerEnabled ins)
         (Ins.promptEnabled ins)
         (Ins.isInUse ins)
         (Ins.preset ins)
         (notNot (INavigation.lightsFollowCamera data))
         (notNot (INavigation.autoRotation data))
         (Ins.autoRotationSpeed ins)
         (notNot (INavigation.autoZoom data))
         (IOrbit.orbit orbit)
         (IOrbit.offset orbit)
         (match IOrbit.pivot orbit with
          | Some p => p
          | None => [num 0; num 0; num 0]
          end)
         (_replaceNull (IOrbit.minOrbit orbit) NegInfinity)
         (_replaceNull (IOrbit.minOffset orbit) NegInfinity)
         (_replaceNull (IOrbit.maxOrbit orbit) PosInfinity)
         (_replaceNull (IOrbit.maxOffset orbit) PosInfinity)
         (Ins.keyNavActive ins)
         (Ins.promptActive ins).

Definition toData (ins : Ins.t) : INavigation.t :=
  INavigation.mk (Some "Orbit"%string)
                 (Some (Ins.enabled ins))
                 (Some (Ins.autoZoom ins))
                 (Some (Ins.autoRotation ins))
                 (Some (Ins.lightsFollowCamera ins))
                 (Some (IOrbit.mk (Ins.orbit ins) (Ins.offset ins) (Some (Ins.pivot ins))
                                  (Ins.minOrbit ins) (Ins.maxOrbit ins)
                                  (Ins.minOffset ins) (Ins.maxOffset ins))).

(** What [JSON.stringify] followed by [JSON.parse] makes of an array of
    numbers: an entry that is not a finite number comes back as [null]. *)
Definition arrayViaJSON (v : NumberArray) : NumberArray :=
  map (fun e => match e with
                | Some (Finite q) => Some (Finite q)
                | _ => None
                end) v.

Definition viaJSON (data : INavigation.t) : INavigation.t :=
  INavigation.mk (INavigation.type data) (INavigation.enabled data)
                 (INavigation.autoZoom data) (INavigation.autoRotation data)
                 (INavigation.lightsFollowCamera data)
                 (match INavigation.orbit data with
                  | Some o =>
                      Some (IOrbit.mk (arrayViaJSON (IOrbit.orbit o))
                                      (arrayViaJSON (IOrbit.offset o))
                                      (match IOrbit.pivot o with
                                       | Some p => Some (arrayViaJSON p)
                                       | None => None
                                       end)
                                      (arrayViaJSON (IOrbit.minOrbit o))
                                      (arrayViaJSON (IOrbit.maxOrbit o))
                                      (arrayViaJSON (IOrbit.minOffset o))
                                      (arrayViaJSON (IOrbit.maxOffset o)))
                  | None => None
                  end).

(** Entries that are finite numbers; entries that are finite or a given
    infinity. *)
Definition finiteEntry (e : option JSNumber) : Prop :=
  exists q, e = Some (Finite q).
Definition finiteOr (inf : JSNumber) (e : option JSNumber) : Prop :=
  e = Some inf \/ finiteEntry e.

(** The inputs as the component declares them. *)
Definition declared : Ins.t :=
  Ins.mk true true true false None_ true false (Finite 10) true
         [num (-25); num (-25); num 0]
         [num 0; num 0; num 100]
         [num 0; num 0; num 0]
         [num (-90); Some NegInfinity; Some NegInfinity]
         [Some NegInfinity; Some NegInfinity; num 0.1]
         [num 90; Some PosInfinity; Some PosInfinity]
         [Some PosInfinity; Some PosInfinity; Some PosInfinity]
         Orbit false.

End NavigationData.

(** ** Measurement markers (utils/MeasurementMarker.ts, lines 37-44 and
    405-422) *)

Module Marker.
Import String.

(** The classes of markers [createMarker] builds. *)
Inductive MeasurementMarker : Set :=
  SphereMarker | RingMarker | CrosshairMarker | DiscMarker | PinMarker.

(** [EMarkerStyle], with the numeric values of the enum. *)
Inductive EMarkerStyle : Set := Sphere | Ring | Crosshair | Disc | Pin.

Definition styleIndex (style : EMarkerStyle) : Z :=
  match style with Sphere => 0 | Ring => 1 | Crosshair => 2 | Disc => 3 | Pin => 4 end%Z.

Definition markerStyleValues : list string :=
  [ "Sphere"; "Ring"; "Crosshair"; "Disc"; "Pin" ]%string.

(** [array[index]] for an integer index: [undefined] out of range. *)
Definition at_ {A : Type} (l : list A) (index : Z) : option A :=
  if (index <? 0)%Z then None else nth_error l (Z.to_nat index).

(** [getMarkerStyleValue]: [markerStyleValues[index] || "Sphere"]; the
    empty string is falsy. *)
Definition getMarkerStyleValue (index : Z) : string :=
  match at_ markerStyleValues index with
  | Some v => if String.eqb v "" then "Sphere" else v
  | None => "Sphere"
  end%string.

(** [createMarker]: the argument is a style name ([inl]) or a number
    ([inr]). *)
Definition createMarker (style : string + Z) : MeasurementMarker :=
  let styleValue :=
    match style with
    | inr index => getMarkerStyleValue index
    | inl v => v
    end in
  if String.eqb styleValue "Sphere" then SphereMarker
  else if String.eqb styleValue "Ring" then RingMarker
  else if String.eqb styleValue "Crosshair" then CrosshairMarker
  else if String.eqb styleValue "Disc" then DiscMarker
  else if String.eqb styleValue "Pin" then PinMarker
  else SphereMarker.

(** [Array.prototype.indexOf] on strings: -1 when absent. *)
Fixpoint indexOfFrom (i : Z) (l : list string) (v : string) : Z :=
  match l with
  | [] => (-1)%Z
  | h :: rest => if String.eqb h v then i else indexOfFrom (i + 1)%Z rest v
  end.

Definition indexOf (l : list string) (v : string) : Z := indexOfFrom 0 l v.

(** The name and the class that go with a style. *)
Definition styleName (style : EMarkerStyle) : string :=
  match style with
  | Sphere => "Sphere" | Ring => "Ring" | Crosshair => "Crosshair"
  | Disc => "Disc" | Pin => "Pin"
  end%string.

Definition markerOf (style : EMarkerStyle) : MeasurementMarker :=
  match style with
  | Sphere => SphereMarker | Ring => RingMarker | Crosshair => CrosshairMarker
  | Disc => DiscMarker | Pin => PinMarker
  end.

End Marker.

(** ** The measurement tape (CVAnnotations.ts, lines 1142-1508) *)

Module Tape.
Import String.

Inductive ETapeState : Set := SetStart | SetEnd.

(** The part of the component the handlers below read and write: inputs,
    the output [state], the input [markerStyle] as the number it holds, and
    the visibility of the two markers and of the line. *)
Record t : Set := mk {
  visible : bool;
  enabled : bool;
  startPosition : Vector3;
  startDirection : Vector3;
  endPosition : Vector3;
  endDirection : Vector3;
  markerStyle : Z;
  state : ETapeState;
  startMarkerVisible : bool;
  endMarkerVisible : bool;
  lineVisible : bool
}.

(** What a pointer event hits. *)
Inductive Component : Set := Model | Other.

(** A pointer event, with the position and normal picked under the pointer
    already brought to world space. *)
Record IPointerEvent : Set := mkEvent {
  isDragging : bool;
  component : option Component;
  position : Vector3;
  normal : Vector3
}.

Definition isModel (c : option Component) : bool :=
  match c with
  | Some Model => true
  | _ => false
  end.

(** [onPointerUp]. *)
Definition onPointerUp (tape : t) (event : IPointerEvent) : t :=
  if (isDragging event || negb (isModel (component event)))%bool then tape
  else
    match state tape with
    | SetStart =>
        mk (visible tape) (enabled tape)
           (position event) (normal event) (endPosition tape) (endDirection tape)
           (markerStyle tape) SetEnd true false false
    | SetEnd =>
        mk (visible tape) (enabled tape)
           (startPosition tape) (startDirection tape) (position event) (normal event)
           (markerStyle tape) SetStart true true true
    end.

(** [ITape]; a member that is [undefined] is [None]. *)
Record ITape : Set := mkData {
  d_enabled : bool;
  d_startPosition : option Vector3;
  d_startDirection : option Vector3;
  d_endPosition : option Vector3;
  d_endDirection : option Vector3;
  d_markerStyle : option string
}.

Definition orElse (v : option Vector3) (d : Vector3) : Vector3 :=
  match v with
  | Some a => a
  | None => d
  end.

(** [fromData]. *)
Definition fromData (tape : t) (data : ITape) : t :=
  let style :=
    match d_markerStyle data with
    | Some v =>
        if String.eqb v "" then markerStyle tape
        else
          let styleIndex := Marker.indexOf Marker.markerStyleValues v in
          if (0 <=? styleIndex)%Z then styleIndex else markerStyle tape
    | None => markerStyle tape
    end in
  mk (d_enabled data) false
     (orElse (d_startPosition data) (mkVector3 0 0 0))
     (orElse (d_startDirection data) (mkVector3 1 0 0))
     (orElse (d_endPosition data) (mkVector3 0 0 0))
     (orElse (d_endDirection data) (mkVector3 1 0 0))
     style (state tape)
     (startMarkerVisible tape) (endMarkerVisible tape) (lineVisible tape).

(** [toData]: every member but [enabled] is commented out in the source. *)
Definition toData (tape : t) : ITape :=
  mkData (visible tape) None None None None None.

(** The class of the markers [recreateMarkers] builds. *)
Definition recreateMarkers (tape : t) : Marker.MeasurementMarker :=
  Marker.createMarker (inr (markerStyle tape)).

(** An event [onPointerUp] returns on at once. *)
Definition ignored (event : IPointerEvent) : Prop :=
  isDragging event = true \/ isModel (component event) = false.

End Tape.

(** ** The document (CVAnnotations.ts, lines 851-858) *)

Module Document.
Import String.

(** The getter [assetBaseName]: [indexOf] is [index 0], [None] standing
    for -1, and [substr(0, index)] is [substring 0 index]. *)
Definition assetBaseName (assetPath : string) : string :=
  let name := assetPath in
  match index 0 ".svx.json" name with
  | Some index => substring 0 index name
  | None => name
  end.

End Document.

(** ** Vocabulary of the further statements *)

(** The point [p] lies in the box [b], faces included. *)
Definition containsPoint (b : Box3) (p : Vector3) : Prop :=
  (x (min b) <= x p /\ x p <= x (max b)) /\
  (y (min b) <= y p /\ y p <= y (max b)) /\
  (z (min b) <= z p /\ z p <= z (max b)).

(** The box [inner] lies in the box [outer]. *)
Definition insideBox (outer inner : Box3) : Prop :=
  (x (min outer) <= x (min inner) /\ x (max inner) <= x (max outer)) /\
  (y (min outer) <= y (min inner) /\ y (max inner) <= y (max outer)) /\
  (z (min outer) <= z (min inner) /\ z (max inner) <= z (max outer)).

(** The box crosses the centre of the screen on both axes. *)
Definition crossesCenter (b : Box3) : Prop :=
  (x (min b) <= 0 /\ 0 <= x (max b)) /\ (y (min b) <= 0 /\ 0 <= y (max b)).

(** The texture space left, in the state [st], once the reservation is
    taken off: the left-hand side of the loop condition minus [texSize]. *)
Definition room (st : OrbitNavigation.Alloc) : Z :=
  (16384 * 16384 - OrbitNavigation.reserved st - OrbitNavigation.texSize st)%Z.

(** Sixteen models that all propose [High]. *)
Definition sixteenEntries : list OrbitNavigation.Entry :=
  map (fun n => OrbitNavigation.mkEntry (mkModel n boxFull exactSelect) 1 1 High)
      (seq 0 16).

(** The weights for which a model at tier [q] is proposed the same tier. *)
Definition keepsTier (q : EDerivativeQuality) (w : Q) : Prop :=
  match q with
  | Thumb => w < 0.05
  | Low => 0.03 <= w /\ w < 0.12
  | Medium => 0.10 <= w /\ w < 0.32
  | High => 0.3 <= w
  end.

(** The weights under the lower bound or over the upper bound of the band
    of tier [q]. *)
Definition leavesTier (q : EDerivativeQuality) (w : Q) : Prop :=
  match q with
  | Thumb => 0.05 < w
  | Low => w < 0.03 \/ 0.12 < w
  | Medium => w < 0.10 \/ 0.32 < w
  | High => w < 0.3
  end.

(** The sum of the pixel costs of the tiers the models of a scene are at. *)
Definition sceneCost (s : Qualities) (components : list CVModel2) : Z :=
  fold_right (fun m acc => (OrbitNavigation.sizeMap (s (name m)) + acc)%Z) 0%Z components.

(** * Properties *)

(** ** Numbers and tiers *)

(** [lra] with divisions by the constants of the source read as products. *)
Ltac halves :=
  unfold Qdiv in *; change (/ 2) with (1 # 2) in *; change (/ 4) with (1 # 4) in *.
Ltac qlra := halves; lra.

Lemma Qltb_lt (a b : Q) : Qltb a b = true <-> a < b.
Proof.
  unfold Qltb. split; intros H.
  - apply Qlt_alt. destruct (a ?= b); congruence.
  - pose proof (proj1 (Qlt_alt a b) H) as E. now rewrite E.
Qed.

Lemma Qltb_ge (a b : Q) : Qltb a b = false <-> b <= a.
Proof.
  split.
  - intros H. apply Qnot_lt_le. intros L. apply Qltb_lt in L. congruence.
  - intros H. destruct (Qltb a b) eqn:E; [|reflexivity].
    apply Qltb_lt in E. exfalso. apply (Qlt_not_le _ _ E H).
Qed.

Lemma Qltb_spec (a b : Q) : reflect (a < b) (Qltb a b).
Proof.
  destruct (Qltb a b) eqn:E; constructor.
  - now apply Qltb_lt.
  - apply Qltb_ge in E. now apply Qle_not_lt.
Qed.

Lemma Math_max_cases (a b : Q) :
  (a < b /\ Math_max a b == b) \/ (b <= a /\ Math_max a b == a).
Proof. exact (Q.max_spec a b). Qed.

Lemma Math_min_cases (a b : Q) :
  (a < b /\ Math_min a b == a) \/ (b <= a /\ Math_min a b == b).
Proof. exact (Q.min_spec a b). Qed.

Lemma Math_max_lub (a b c : Q) : Math_max a b <= c <-> a <= c /\ b <= c.
Proof.
  destruct (Math_max_cases a b) as [[H E]|[H E]]; rewrite E; split; intros; lra.
Qed.

Lemma Math_max_l (a b : Q) : a <= Math_max a b.
Proof. destruct (Math_max_cases a b) as [[H E]|[H E]]; rewrite E; lra. Qed.

Lemma Math_max_r (a b : Q) : b <= Math_max a b.
Proof. destruct (Math_max_cases a b) as [[H E]|[H E]]; rewrite E; lra. Qed.

Lemma Math_min_l (a b : Q) : Math_min a b <= a.
Proof. destruct (Math_min_cases a b) as [[H E]|[H E]]; rewrite E; lra. Qed.

Lemma Math_max3_nonneg (a b : Q) : 0 <= Math_max3 a b 0.
Proof. unfold Math_max3. apply Math_max_r. Qed.

(** The nearest-edge offset of an interval [[c - h, c + h]] is [|c| - h],
    cut at zero. *)
Lemma Math_max3_edge (lo hi : Q) :
  Math_max3 (- hi) lo 0 == Math_max (Qabs ((lo + hi) / 2) - (hi - lo) / 2) 0.
Proof.
  unfold Math_max3.
  assert (E : Math_max (- hi) lo == Qabs ((lo + hi) / 2) - (hi - lo) / 2).
  { apply Qabs_case; intros Hc;
      destruct (Math_max_cases (- hi) lo) as [[H E]|[H E]]; rewrite E; qlra. }
  unfold Math_max in *. rewrite E. reflexivity.
Qed.

Lemma Qinv_le_compat (a b : Q) : 0 < a -> a <= b -> 1 / b <= 1 / a.
Proof.
  intros Ha Hab.
  apply Qle_shift_div_l; [exact Ha|].
  assert (E : 1 / b * a == a / b) by (field; lra).
  rewrite E. apply Qle_shift_div_r; lra.
Qed.

Lemma Qinv_unit_interval (d : Q) : 0 <= d -> 0 < 1 / (1 + d) /\ 1 / (1 + d) <= 1.
Proof.
  intros Hd. split.
  - apply Qlt_shift_div_l; lra.
  - apply Qle_shift_div_r; lra.
Qed.

Lemma quality_eqb_eq (a b : EDerivativeQuality) : quality_eqb a b = true <-> a = b.
Proof.
  unfold quality_eqb. rewrite Z.eqb_eq.
  destruct a, b; simpl; split; intros H; congruence || discriminate.
Qed.

Lemma quality_eqb_refl (a : EDerivativeQuality) : quality_eqb a a = true.
Proof. now apply quality_eqb_eq. Qed.

Lemma quality_leb_le (a b : EDerivativeQuality) : quality_leb a b = true <-> quality_le a b.
Proof. unfold quality_leb, quality_le. apply Z.leb_le. Qed.

Lemma quality_ltb_lt (a b : EDerivativeQuality) : quality_ltb a b = true <-> quality_lt a b.
Proof. unfold quality_ltb, quality_lt. apply Z.ltb_lt. Qed.

Lemma quality_le_antisym (a b : EDerivativeQuality) :
  quality_le a b -> quality_le b a -> a = b.
Proof.
  unfold quality_le. destruct a, b; simpl; intros; congruence || lia.
Qed.

(** ** Screen-space projector *)




(** ** Importance scorer *)

Lemma depthWeight_outside (zmin zmax : Q) :
  zmax < -1 \/ 1 < zmin -> depthWeight zmin zmax = 0.
Proof.
  intros H. unfold depthWeight.
  destruct (Qltb_spec zmax (-1)), (Qltb_spec 1 zmin); simpl; try reflexivity.
  destruct H; contradiction.
Qed.

Lemma depthWeight_inside (zmin zmax : Q) :
  zmin <= zmax -> -1 < zmin -> zmax < 1 -> depthWeight zmin zmax = 1.
Proof.
  intros Hord Hlo Hhi. unfold depthWeight.
  destruct (Qltb_spec zmax (-1)); [lra|].
  destruct (Qltb_spec 1 zmin); [lra|]. simpl.
  destruct (Qltb_spec (-1) zmin); [|contradiction].
  destruct (Qltb_spec zmax 1); [|contradiction]. reflexivity.
Qed.



(** C3, as amended: [depthWeight(2, 3)] and [depthWeight(1.5, 2.5)] are both
    0: a range that lies wholly beyond the far plane ([1 < min]) or wholly
    before the near plane ([max < -1]) gets 0; and [depthWeight] is 1 for
    every range strictly inside the depth range ([-1 < min] and
    [max < 1]). *)
Theorem depthWeight_boundary (zmin zmax : Q) :
  depthWeight 2 3 == 0 /\
  depthWeight 1.5 2.5 == 0 /\
  (zmax < -1 \/ 1 < zmin -> depthWeight zmin zmax == 0) /\
  (zmin <= zmax -> -1 < zmin -> zmax < 1 -> depthWeight zmin zmax == 1).
Proof.
  split; [reflexivity|]. split; [reflexivity|].
  split; [intros H; now rewrite depthWeight_outside|].
  intros; now rewrite depthWeight_inside.
Qed.

Lemma depthWeight_boundary_witness :
  depthWeight (-0.5) 0.5 == 1 /\ depthWeight (-3) (-2) == 0.
Proof.
  split.
  - apply (depthWeight_boundary (-0.5) 0.5); reflexivity || (intro; discriminate).
  - apply (depthWeight_boundary (-3) (-2)). left. reflexivity.
Defined.

(** C3 as stated fails: the range (1.5, 2.5) lies wholly beyond the far
    plane and the code gives it 0, not a value strictly between 0 and 1;
    the code also gives 0 at (-1, 1), not 1. *)
Lemma depthWeight_boundary_counterexample :
  depthWeight 1.5 2.5 == 0 /\
  ~ (0 < depthWeight 1.5 2.5 /\ depthWeight 1.5 2.5 < 1) /\
  depthWeight (-1) 1 == 0 /\
  ~ (depthWeight (-1) 1 == 1 /\ depthWeight 2 3 == 0 /\
     0 < depthWeight 1.5 2.5 /\ depthWeight 1.5 2.5 < 1).
Proof.
  split; [reflexivity|].
  split; [intros [H _]; vm_compute in H; discriminate H|].
  split; [reflexivity|].
  intros (_ & _ & H & _). vm_compute in H. discriminate H.
Qed.

Lemma maxCenterWeight_agree (b : Box3) :
  DerivativesController.maxCenterWeight b == OrbitNavigation.maxCenterWeight b.
Proof.
  unfold DerivativesController.maxCenterWeight, OrbitNavigation.maxCenterWeight.
  cbv zeta. apply Qdiv_comp; [reflexivity|ring].
Qed.

Lemma maxCenterWeight_range (b : Box3) :
  0 < OrbitNavigation.maxCenterWeight b /\ OrbitNavigation.maxCenterWeight b <= 1.
Proof.
  unfold OrbitNavigation.maxCenterWeight. cbv zeta.
  pose proof (Math_max3_nonneg (- x (max b)) (x (min b))) as Hx.
  pose proof (Math_max3_nonneg (- y (max b)) (y (min b))) as Hy.
  set (dx := Math_max3 (- x (max b)) (x (min b)) 0) in *.
  set (dy := Math_max3 (- y (max b)) (y (min b)) 0) in *.
  assert (E : 1 + dx + dy == 1 + (dx + dy)) by ring.
  rewrite E. apply Qinv_unit_interval. lra.
Qed.

(** The nearest-edge offset grows with the distance of the centre from the
    origin when the extent is fixed. *)
Lemma edge_offset_monotone (lo1 hi1 lo2 hi2 : Q) :
  hi1 - lo1 == hi2 - lo2 ->
  Qabs ((lo1 + hi1) / 2) <= Qabs ((lo2 + hi2) / 2) ->
  Math_max3 (- hi1) lo1 0 <= Math_max3 (- hi2) lo2 0.
Proof.
  intros Hw Hc. rewrite !Math_max3_edge.
  set (c1 := Qabs ((lo1 + hi1) / 2)) in *.
  set (c2 := Qabs ((lo2 + hi2) / 2)) in *.
  apply Math_max_lub. split.
  - apply Qle_trans with (c2 - (hi2 - lo2) / 2); [qlra|apply Math_max_l].
  - apply Math_max_r.
Qed.

(** C9, as amended: of two boxes of identical width and height, the one
    whose centre is at least as close to the origin on each screen axis
    separately has a [maxCenterWeight] at least as large, in both files. *)
Theorem maxCenterWeight_monotone (a b : Box3) :
  sameSize a b -> closerOnEachAxis a b ->
  OrbitNavigation.maxCenterWeight b <= OrbitNavigation.maxCenterWeight a /\
  DerivativesController.maxCenterWeight b <= DerivativesController.maxCenterWeight a.
Proof.
  intros [Sx Sy] [Cx Cy]. simpl in Sx, Sy, Cx, Cy.
  assert (H : OrbitNavigation.maxCenterWeight b <= OrbitNavigation.maxCenterWeight a).
  { unfold OrbitNavigation.maxCenterWeight. cbv zeta.
    pose proof (edge_offset_monotone _ _ _ _ Sx Cx) as Hx.
    pose proof (edge_offset_monotone _ _ _ _ Sy Cy) as Hy.
    pose proof (Math_max3_nonneg (- x (max a)) (x (min a))) as Px.
    pose proof (Math_max3_nonneg (- y (max a)) (y (min a))) as Py.
    apply Qinv_le_compat; lra. }
  split; [exact H|]. now rewrite !maxCenterWeight_agree.
Qed.

Lemma maxCenterWeight_monotone_witness :
  (sameSize squareCentred squareOnAxis /\ closerOnEachAxis squareCentred squareOnAxis) /\
  OrbitNavigation.maxCenterWeight squareOnAxis
    <= OrbitNavigation.maxCenterWeight squareCentred /\
  DerivativesController.maxCenterWeight squareOnAxis
    <= DerivativesController.maxCenterWeight squareCentred.
Proof.
  assert (S : sameSize squareCentred squareOnAxis) by (split; reflexivity).
  assert (C : closerOnEachAxis squareCentred squareOnAxis)
    by (split; vm_compute; discriminate).
  split; [split; assumption|].
  exact (maxCenterWeight_monotone squareCentred squareOnAxis S C).
Defined.

(** C9 as stated fails for the distance to the origin: the square centred at
    (1.05, 1) is nearer to the origin than the equal square centred at
    (1.5, 0), yet its [maxCenterWeight] is smaller (1/2.05 against 1/2). *)
Lemma maxCenterWeight_monotone_counterexample :
  sameSize squareDiagonal squareOnAxis /\
  centerDistance2 squareDiagonal < centerDistance2 squareOnAxis /\
  OrbitNavigation.maxCenterWeight squareDiagonal
    < OrbitNavigation.maxCenterWeight squareOnAxis /\
  DerivativesController.maxCenterWeight squareDiagonal
    < DerivativesController.maxCenterWeight squareOnAxis.
Proof.
  repeat split; vm_compute; reflexivity.
Qed.




(** ** The scorer on numbers that are not finite *)










Lemma JS_applyEntry_finite (s : Qualities) (e : OrbitNavigation.Entry) :
  JS.applyEntry s (OrbitNavigation.model e) (JS.Finite (OrbitNavigation.weight e))
                (OrbitNavigation.quality e)
  = OrbitNavigation.applyEntry s e.
Proof. reflexivity. Qed.


Lemma unloaded_proposal (current : EDerivativeQuality) :
  JS.getQuality current JS.NaN = High.
Proof. destruct current; reflexivity. Qed.






(** ** Quality classifier *)

Ltac eval_tiers :=
  repeat match goal with
  | |- context [quality_leb ?a ?b] =>
      is_constructor a; is_constructor b;
      let v := eval vm_compute in (quality_leb a b) in
      change (quality_leb a b) with v
  end.

(** Unfolds [getQuality] into its comparisons and decides them one by one;
    impossible combinations are closed by linear arithmetic. *)
Ltac open_getQuality :=
  unfold OrbitNavigation.getQuality, OrbitNavigation.steps;
  cbn [find OrbitNavigation.stepSize].

Ltac split_comparisons :=
  repeat first
    [ progress eval_tiers
    | progress cbv iota
    | match goal with
      | |- context [Qltb ?a ?b] =>
          lazymatch b with
          | context [Qltb _ _] => fail
          | context [quality_leb _ _] => fail
          | _ => idtac
          end;
          destruct (Qltb_spec a b);
          try (exfalso; unfold OrbitNavigation.hyst in *; lra)
      end ].

Lemma getQuality_zero (current : EDerivativeQuality) (w : Q) :
  w == 0 -> OrbitNavigation.getQuality current w = Thumb.
Proof.
  intros Hw. destruct current; open_getQuality; split_comparisons; reflexivity.
Qed.



Ltac eval_tiers_in H :=
  repeat match type of H with
  | context [quality_leb ?a ?b] =>
      is_constructor a; is_constructor b;
      let v := eval vm_compute in (quality_leb a b) in
      change (quality_leb a b) with v in H
  end;
  cbv iota in H.

(** Picks one of the three entries of [steps]. *)
Ltac pick_step H :=
  cbn [In OrbitNavigation.steps] in H;
  destruct H as [H|[H|[H|[]]]]; inversion H; subst; clear H.

Lemma stepSize_margin (current : EDerivativeQuality) (size : Q) (q : EDerivativeQuality) :
  (quality_le current q -> OrbitNavigation.stepSize current (size, q) = size + OrbitNavigation.hyst) /\
  (quality_lt q current -> OrbitNavigation.stepSize current (size, q) = size).
Proof.
  unfold OrbitNavigation.stepSize, quality_le, quality_lt, quality_leb.
  destruct (Z.leb_spec (qval current) (qval q)); split; intros; reflexivity || lia.
Qed.

Lemma getQuality_below (current : EDerivativeQuality) (w size : Q) (q : EDerivativeQuality) :
  In (size, q) OrbitNavigation.steps ->
  w < OrbitNavigation.stepSize current (size, q) ->
  quality_le (OrbitNavigation.getQuality current w) q.
Proof.
  intros Hin Hw. unfold quality_le. pick_step Hin;
    destruct current; unfold OrbitNavigation.stepSize in Hw; eval_tiers_in Hw;
    open_getQuality; split_comparisons; cbn [qval]; lia.
Qed.

Lemma getQuality_above (current : EDerivativeQuality) (w size : Q) (q : EDerivativeQuality) :
  In (size, q) OrbitNavigation.steps ->
  quality_lt q (OrbitNavigation.getQuality current w) ->
  OrbitNavigation.stepSize current (size, q) <= w.
Proof.
  intros Hin. unfold quality_lt. pick_step Hin;
    destruct current; unfold OrbitNavigation.stepSize; eval_tiers; cbv iota;
    open_getQuality; split_comparisons; cbn [qval]; intros Hq;
    try lia; unfold OrbitNavigation.hyst in *; lra.
Qed.

(** The proposal is at or below the tier of a step exactly when the weight
    is under the value [size] has at the comparison of that step. *)
Lemma getQuality_threshold (current : EDerivativeQuality) (w size : Q)
      (q : EDerivativeQuality) :
  In (size, q) OrbitNavigation.steps ->
  (quality_le (OrbitNavigation.getQuality current w) q
   <-> w < OrbitNavigation.stepSize current (size, q)).
Proof.
  intros Hin. split; [|now apply getQuality_below].
  intros Hq. apply Qnot_le_lt. intros Hw. revert Hq Hw.
  unfold quality_le. pick_step Hin;
    destruct current; unfold OrbitNavigation.stepSize; eval_tiers; cbv iota;
    open_getQuality; split_comparisons; cbn [qval]; intros Hq Hw;
    try lia; unfold OrbitNavigation.hyst in *; lra.
Qed.

(** C4, as amended: [getQuality] adds the margin 0.02 to a step's threshold
    exactly when the model's current tier is at or below that step's tier
    ([current <= q]), and compares the weight with the plain threshold of
    every step below the current tier.  For a step at or above the current
    tier the proposal is at or below the step's tier when the weight is
    under the threshold plus 0.02 and above it when the weight exceeds the
    threshold plus 0.02; for a step below the current tier the proposal is
    at or below the step's tier exactly when the weight is under the plain
    threshold.  Hence a downgrade happens as soon as the weight is under the
    plain threshold of a lower step, and an upgrade only when the weight
    reaches the threshold of the current tier plus the margin. *)
Theorem getQuality_hysteresis (current : EDerivativeQuality) (w : Q) :
  (forall size q, In (size, q) OrbitNavigation.steps ->
     (quality_le current q ->
      (w < size + 0.02 -> quality_le (OrbitNavigation.getQuality current w) q) /\
      (size + 0.02 < w -> quality_lt q (OrbitNavigation.getQuality current w))) /\
     (quality_lt q current ->
      (quality_le (OrbitNavigation.getQuality current w) q <-> w < size))) /\
  (forall size q, In (size, q) OrbitNavigation.steps ->
     (quality_le current q ->
      OrbitNavigation.stepSize current (size, q) == size + 0.02) /\
     (quality_lt q current ->
      OrbitNavigation.stepSize current (size, q) == size)) /\
  (forall size q, In (size, q) OrbitNavigation.steps ->
     (w < OrbitNavigation.stepSize current (size, q) ->
      quality_le (OrbitNavigation.getQuality current w) q) /\
     (quality_lt q (OrbitNavigation.getQuality current w) ->
      OrbitNavigation.stepSize current (size, q) <= w)) /\
  (forall size q, In (size, q) OrbitNavigation.steps ->
     quality_lt q current -> w < size ->
     quality_le (OrbitNavigation.getQuality current w) q) /\
  (forall size, In (size, current) OrbitNavigation.steps ->
     quality_lt current (OrbitNavigation.getQuality current w) ->
     size + 0.02 <= w).
Proof.
  split; [|split; [|split; [|split]]].
  - intros size q Hin. destruct (stepSize_margin current size q) as [A B].
    pose proof (getQuality_threshold current w size q Hin) as T.
    split; intros H; [rewrite (A H) in T|rewrite (B H) in T; exact T].
    unfold OrbitNavigation.hyst in T. split; [exact (proj2 T)|].
    intros Hw. unfold quality_lt, quality_le in *.
    destruct (Z.lt_ge_cases (qval q) (qval (OrbitNavigation.getQuality current w)))
      as [L|L]; [exact L|].
    apply (proj1 T) in L. lra.
  - intros size q _. destruct (stepSize_margin current size q) as [A B].
    split; intros H; [rewrite (A H)|rewrite (B H)]; reflexivity.
  - intros size q Hin. split.
    + now apply getQuality_below.
    + now apply getQuality_above.
  - intros size q Hin Hq Hw. apply (getQuality_below current w size q Hin).
    destruct (stepSize_margin current size q) as [_ B]. now rewrite (B Hq).
  - intros size Hin Hq.
    pose proof (getQuality_above current w size current Hin Hq) as H.
    destruct (stepSize_margin current size current) as [A _].
    rewrite A in H by (unfold quality_le; lia). exact H.
Qed.

Lemma getQuality_hysteresis_witness :
  quality_lt Low (OrbitNavigation.getQuality Low 0.13) /\
  quality_le (OrbitNavigation.getQuality Low 0.11) Low /\
  (quality_le (OrbitNavigation.getQuality Medium 0.11) Low <-> 0.11 < 0.10) /\
  quality_le (OrbitNavigation.getQuality Medium 0.095) Low /\
  0.10 + 0.02 <= 0.31.
Proof.
  assert (I : In (0.10, Low) OrbitNavigation.steps) by (right; left; reflexivity).
  assert (L : quality_le Low Low) by (unfold quality_le; lia).
  split; [|split; [|split; [|split]]].
  - refine (proj2 (proj1 (proj1 (getQuality_hysteresis Low 0.13) 0.10 Low I) L) _).
    reflexivity.
  - refine (proj1 (proj1 (proj1 (getQuality_hysteresis Low 0.11) 0.10 Low I) L) _).
    reflexivity.
  - refine (proj2 (proj1 (getQuality_hysteresis Medium 0.11) 0.10 Low I) _).
    reflexivity.
  - refine (proj1 (proj2 (proj2 (proj2 (getQuality_hysteresis Medium 0.095)))) 0.10 Low I _ _);
      reflexivity.
  - refine (proj2 (proj2 (proj2 (proj2 (getQuality_hysteresis Low 0.31)))) 0.10 I _).
    reflexivity.
Defined.

(** C4 as stated fails: with current tier [Medium] the step of [Thumb], a
    tier below the current one, is compared without the margin, and with
    current tier [Thumb] the step of [Medium], a tier above the current one,
    is compared with it.  A model at [Medium] whose weight is 0.095 is
    downgraded at once; a model at [Low] whose weight is 0.105 is not
    upgraded. *)
Lemma getQuality_hysteresis_counterexample :
  (In (0.03, Thumb) OrbitNavigation.steps /\ quality_le Thumb Medium /\
   OrbitNavigation.stepSize Medium (0.03, Thumb) == 0.03 /\
   ~ OrbitNavigation.stepSize Medium (0.03, Thumb) == 0.03 + 0.02) /\
  (In (0.3, Medium) OrbitNavigation.steps /\ ~ quality_le Medium Thumb /\
   OrbitNavigation.stepSize Thumb (0.3, Medium) == 0.3 + 0.02) /\
  OrbitNavigation.getQuality Medium 0.095 = Low /\
  OrbitNavigation.getQuality Low 0.105 = Low.
Proof.
  split; [|split; [|split]].
  - split; [left; reflexivity|]. split; [discriminate|].
    split; [reflexivity|]. intros H. discriminate H.
  - split; [right; right; left; reflexivity|].
    split; [intros H; apply H; reflexivity|reflexivity].
  - reflexivity.
  - reflexivity.
Qed.

(** Once at [Low], weights of 0.095 and 0.105 keep the tier at [Low]. *)
Lemma classifyFrames_Low (a b : Q) (n : nat) :
  OrbitNavigation.getQuality Low a = Low ->
  OrbitNavigation.getQuality Low b = Low ->
  classifyFrames Low (oscillate a b n) = repeat Low n.
Proof.
  revert a b. induction n as [|n IH]; intros a b Ha Hb; [reflexivity|].
  cbn [oscillate classifyFrames repeat]. rewrite Ha. f_equal. now apply IH.
Qed.

(** C5, as amended: from current tier [Medium], with weights alternating
    between 0.095 and 0.105, the tier drops to [Low] at the first frame
    whose weight is 0.095 and is [Low] at every later frame; the tier
    changes once and does not oscillate. *)
Theorem hysteresis_stability (n : nat) :
  classifyFrames Medium (oscillate 0.095 0.105 n) = repeat Low n /\
  classifyFrames Medium (oscillate 0.105 0.095 (S n)) = Medium :: repeat Low n /\
  classifyFrames Low (oscillate 0.095 0.105 n) = repeat Low n /\
  classifyFrames Low (oscillate 0.105 0.095 n) = repeat Low n.
Proof.
  assert (A : OrbitNavigation.getQuality Low 0.095 = Low) by reflexivity.
  assert (B : OrbitNavigation.getQuality Low 0.105 = Low) by reflexivity.
  split; [|split; [|split]].
  - destruct n as [|n]; [reflexivity|].
    cbn [oscillate classifyFrames repeat].
    change (OrbitNavigation.getQuality Medium 0.095) with Low.
    f_equal. now apply classifyFrames_Low.
  - cbn [oscillate classifyFrames].
    change (OrbitNavigation.getQuality Medium 0.105) with Medium. f_equal.
    destruct n as [|n]; [reflexivity|].
    cbn [oscillate classifyFrames repeat].
    change (OrbitNavigation.getQuality Medium 0.095) with Low.
    f_equal. now apply classifyFrames_Low.
  - now apply classifyFrames_Low.
  - now apply classifyFrames_Low.
Qed.

(** C5 as stated fails: from [Medium], the first frame of weight 0.095
    proposes [Low], whichever weight comes first. *)
Lemma hysteresis_stability_counterexample :
  classifyFrames Medium (oscillate 0.095 0.105 4) = [Low; Low; Low; Low] /\
  classifyFrames Medium (oscillate 0.105 0.095 4) = [Medium; Low; Low; Low].
Proof. split; reflexivity. Qed.

(** ** Stable sort *)

Section SortFacts.
Context {A : Type} (keep : A -> A -> bool).

Lemma insertSorted_perm (a : A) (l : list A) :
  Permutation (a :: l) (insertSorted keep a l).
Proof.
  induction l as [|b l IH]; simpl; [reflexivity|].
  destruct (keep a b); [reflexivity|].
  rewrite perm_swap. now apply perm_skip.
Qed.

Lemma sort_perm (l : list A) : Permutation l (sort keep l).
Proof.
  induction l as [|a l IH]; simpl; [constructor|].
  rewrite <- insertSorted_perm. now apply perm_skip.
Qed.

Lemma sort_length (l : list A) : length (sort keep l) = length l.
Proof. symmetry. apply Permutation_length, sort_perm. Qed.

Variable le : A -> A -> Prop.
Hypothesis keep_le : forall a b, keep a b = true -> le a b.
Hypothesis keep_total : forall a b, keep a b = false -> le b a.
Hypothesis le_trans : forall a b c, le a b -> le b c -> le a c.

Lemma insertSorted_sorted (a : A) (l : list A) :
  StronglySorted le l -> StronglySorted le (insertSorted keep a l).
Proof.
  induction 1 as [|b l S IH F]; cbn [insertSorted].
  - repeat constructor.
  - destruct (keep a b) eqn:K.
    + constructor; [constructor; assumption|].
      constructor; [now apply keep_le|].
      apply (Forall_impl _ (fun c H => le_trans a b c (keep_le a b K) H) F).
    + constructor; [exact IH|].
      apply (Permutation_Forall (insertSorted_perm a l)).
      constructor; [now apply keep_total|exact F].
Qed.

Lemma sort_sorted (l : list A) : StronglySorted le (sort keep l).
Proof.
  induction l as [|a l IH]; cbn [sort fold_right]; [constructor|].
  now apply insertSorted_sorted.
Qed.

End SortFacts.

Lemma ascending_sorted (l : list OrbitNavigation.Entry) :
  StronglySorted (fun a b => OrbitNavigation.weight a <= OrbitNavigation.weight b)
                 (sort OrbitNavigation.ascending l).
Proof.
  apply sort_sorted; unfold OrbitNavigation.ascending.
  - intros a b H. apply Qle_bool_iff in H. lra.
  - intros a b H. destruct (Qlt_le_dec 0 (OrbitNavigation.weight a - OrbitNavigation.weight b)) as [L|L].
    + lra.
    + apply Qle_bool_iff in L. congruence.
  - intros a b c. apply Qle_trans.
Qed.

Lemma descending_sorted (l : list DerivativesController.Entry) :
  StronglySorted (fun a b => DerivativesController.weight b <= DerivativesController.weight a)
                 (sort DerivativesController.descending l).
Proof.
  apply sort_sorted; unfold DerivativesController.descending.
  - intros a b H. apply Qle_bool_iff in H. lra.
  - intros a b H.
    destruct (Qlt_le_dec 0 (DerivativesController.weight b - DerivativesController.weight a)) as [L|L].
    + lra.
    + apply Qle_bool_iff in L. congruence.
  - intros a b c H1 H2. apply (Qle_trans _ _ _ H2 H1).
Qed.

(** ** Budget allocator *)

Import OrbitNavigation.

Lemma overBudget_Thumb (r t : Z) : overBudget r t Thumb = false.
Proof. unfold overBudget. apply andb_false_r. Qed.

(** The loop has stopped: its condition is false at the tier it returns. *)
Lemma downgrade_exit (r t : Z) (q : EDerivativeQuality) :
  overBudget r t (downgrade tiersAboveThumb r t q) = false.
Proof.
  unfold tiersAboveThumb.
  destruct q; cbn [downgrade decrement];
    repeat match goal with
    | |- context [if overBudget r t ?q then _ else _] =>
        destruct (overBudget r t q) eqn:?
    end; try assumption; apply overBudget_Thumb.
Qed.

(** More iterations than three change nothing. *)
Lemma downgrade_fuel (k : nat) (r t : Z) (q : EDerivativeQuality) :
  downgrade (tiersAboveThumb + k) r t q = downgrade tiersAboveThumb r t q.
Proof.
  unfold tiersAboveThumb.
  destruct q; cbn [downgrade decrement Nat.add];
    repeat match goal with
    | |- context [if overBudget r t ?q then _ else _] =>
        destruct (overBudget r t q) eqn:?
    end; try reflexivity;
    destruct k; cbn [downgrade]; rewrite ?overBudget_Thumb; reflexivity.
Qed.

Lemma downgrade_range (fuel : nat) (r t : Z) (q : EDerivativeQuality) :
  quality_le Thumb (downgrade fuel r t q) /\ quality_le (downgrade fuel r t q) q.
Proof.
  revert q. induction fuel as [|fuel IH]; intros q; cbn [downgrade].
  - unfold quality_le. destruct q; simpl; lia.
  - destruct (overBudget r t q).
    + destruct (IH (decrement q)) as [A B]. split; [exact A|].
      unfold quality_le in *. destruct q; simpl in *; lia.
    + unfold quality_le. destruct q; simpl; lia.
Qed.

Lemma sizeMap_Thumb_least (q : EDerivativeQuality) : (sizeMap Thumb <= sizeMap q)%Z.
Proof. destruct q; simpl; lia. Qed.

(** What the loop has already assigned is kept, and one entry is added per
    model. *)
Lemma assigned_fold (l : list Entry) (st : Alloc) :
  exists l',
    assigned (fold_left allocStep l st) = assigned st ++ l' /\
    Forall2 downgradeOf l l' /\
    texSize (fold_left allocStep l st) = (texSize st + totalCost l')%Z /\
    reserved (fold_left allocStep l st)
    = (reserved st - Z.of_nat (length l) * (512 * 512))%Z.
Proof.
  revert st. induction l as [|m l IH]; intros st.
  - exists []. cbn [fold_left length totalCost fold_right].
    rewrite app_nil_r. repeat split; [constructor|lia|lia].
  - cbn [fold_left]. destruct (IH (allocStep st m)) as (l' & E & F & T & R).
    exists (mkEntry (model m) (weight m) (relSize m)
              (downgrade tiersAboveThumb (reserved st - 512 * 512) (texSize st) (quality m))
            :: l').
    rewrite E, T, R. cbn [allocStep assigned texSize reserved].
    rewrite <- app_assoc. repeat split.
    + constructor; [|exact F].
      unfold downgradeOf; cbn [model weight relSize quality].
      repeat split; apply downgrade_range.
    + cbn [totalCost fold_right quality]. fold (totalCost l'). lia.
    + cbn [length]. lia.
Qed.

Lemma overBudget_false (r t : Z) (q : EDerivativeQuality) :
  overBudget r t q = false ->
  (t + sizeMap q <= 16384 * 16384 - r)%Z \/ q = Thumb.
Proof.
  unfold overBudget. intros H. apply andb_false_iff in H. destruct H as [H|H].
  - left. apply Z.ltb_ge in H. exact H.
  - right. unfold quality_ltb in H. apply Z.ltb_ge in H.
    destruct q; simpl in H; reflexivity || lia.
Qed.

(** One step keeps the running cost within the budget left by the
    reservation. *)
Lemma allocStep_fits (st : Alloc) (m : Entry) :
  (texSize st <= 16384 * 16384 - reserved st)%Z ->
  (texSize (allocStep st m) <= 16384 * 16384 - reserved (allocStep st m))%Z.
Proof.
  intros H. cbn [allocStep texSize reserved].
  destruct (overBudget_false _ _ _
              (downgrade_exit (reserved st - 512 * 512) (texSize st) (quality m)))
    as [F|F].
  - exact F.
  - rewrite F. simpl sizeMap. lia.
Qed.

Lemma allocate_fits (l : list Entry) (st : Alloc) :
  (texSize st <= 16384 * 16384 - reserved st)%Z ->
  (texSize (fold_left allocStep l st)
   <= 16384 * 16384 - reserved (fold_left allocStep l st))%Z.
Proof.
  revert st. induction l as [|m l IH]; intros st H; cbn [fold_left]; [exact H|].
  apply IH. now apply allocStep_fits.
Qed.

(** When no tier fits, the loop runs down to [Thumb]. *)
Lemma downgrade_to_Thumb (r t : Z) (q : EDerivativeQuality) :
  (16384 * 16384 - r < t + sizeMap Thumb)%Z ->
  downgrade tiersAboveThumb r t q = Thumb.
Proof.
  intros H.
  assert (O : forall q', q' <> Thumb -> overBudget r t q' = true).
  { intros q' Hq. unfold overBudget. apply andb_true_iff. split.
    - apply Z.ltb_lt. pose proof (sizeMap_Thumb_least q'). lia.
    - unfold quality_ltb. apply Z.ltb_lt. destruct q'; simpl; congruence || lia. }
  unfold tiersAboveThumb.
  destruct q; cbn [downgrade decrement];
    rewrite ?O by discriminate; rewrite ?overBudget_Thumb; reflexivity.
Qed.

Lemma allocate_all_Thumb (l : list Entry) (st : Alloc) :
  (16384 * 16384 - reserved st < texSize st)%Z ->
  exists l', assigned (fold_left allocStep l st) = assigned st ++ l' /\
             Forall (fun e => quality e = Thumb) l'.
Proof.
  revert st. induction l as [|m l IH]; intros st H; cbn [fold_left].
  - exists []. rewrite app_nil_r. split; [reflexivity|constructor].
  - assert (T : downgrade tiersAboveThumb (reserved st - 512 * 512) (texSize st) (quality m)
                = Thumb) by (apply downgrade_to_Thumb; simpl sizeMap; lia).
    destruct (IH (allocStep st m)) as (l' & E & F).
    { cbn [allocStep texSize reserved]. rewrite T. simpl sizeMap. lia. }
    exists (mkEntry (model m) (weight m) (relSize m) Thumb :: l').
    rewrite E. cbn [allocStep assigned]. rewrite T, <- app_assoc.
    split; [reflexivity|]. constructor; [reflexivity|exact F].
Qed.

(** The entry at index [i] of the result is the one computed by the step on
    the [i]-th model, from the state reached after the first [i] models. *)
Lemma assigned_nth (l : list Entry) (st : Alloc) (i : nat) (e : Entry) :
  nth_error (assigned (fold_left allocStep l st)) (length (assigned st) + i) = Some e ->
  exists m, nth_error l i = Some m /\
    let before := fold_left allocStep (firstn i l) st in
    e = mkEntry (model m) (weight m) (relSize m)
          (downgrade tiersAboveThumb (reserved before - 512 * 512) (texSize before) (quality m)).
Proof.
  revert st i. induction l as [|m l IH]; intros st i H.
  - cbn [fold_left] in H. rewrite (proj2 (nth_error_None _ _)) in H by lia.
    discriminate.
  - cbn [fold_left] in H. destruct i as [|i].
    + exists m. split; [reflexivity|]. cbn [firstn fold_left].
      destruct (assigned_fold l (allocStep st m)) as (l' & E & _).
      rewrite E in H. cbn [allocStep assigned] in H.
      rewrite <- app_assoc, Nat.add_0_r, nth_error_app2 in H by lia.
      rewrite Nat.sub_diag in H. cbn [app nth_error] in H. congruence.
    + destruct (IH (allocStep st m) i) as (m' & Hm & He).
      { cbn [allocStep assigned]. rewrite length_app. cbn [length].
        replace (length (assigned st) + 1 + i)%nat with (length (assigned st) + S i)%nat by lia.
        exact H. }
      exists m'. split; [exact Hm|]. exact He.
Qed.

Lemma allocate_unfold (l : list Entry) :
  allocate l = fold_left allocStep l (allocStart (length l)).
Proof. reflexivity. Qed.

Lemma allocate_downgradeOf (models : list Entry) :
  Forall2 downgradeOf models (assigned (allocate models)).
Proof.
  rewrite allocate_unfold.
  destruct (assigned_fold models (allocStart (length models))) as (l' & E & F & _).
  rewrite E. exact F.
Qed.

(** A proposed tier that fits is kept. *)
Lemma downgrade_fits (r t : Z) (q : EDerivativeQuality) :
  (t + sizeMap q <= 16384 * 16384 - r)%Z -> downgrade tiersAboveThumb r t q = q.
Proof.
  intros H. unfold tiersAboveThumb. cbn [downgrade].
  replace (overBudget r t q) with false; [reflexivity|].
  symmetry. unfold overBudget. apply andb_false_iff. left. apply Z.ltb_ge. lia.
Qed.

(** Every tier the loop has gone through, from the proposed tier down to
    the one above the tier it returns, was over budget. *)
Lemma downgrade_skipped (r t : Z) (q q' : EDerivativeQuality) :
  quality_lt (downgrade tiersAboveThumb r t q) q' -> quality_le q' q ->
  overBudget r t q' = true.
Proof.
  unfold tiersAboveThumb, quality_lt, quality_le.
  destruct q, q'; cbn [downgrade decrement qval];
    repeat match goal with
    | |- context [if overBudget r t ?q then _ else _] =>
        destruct (overBudget r t q) eqn:?
    end; cbn [qval]; intros; try reflexivity; try lia; congruence.
Qed.

(** The state reached after the first [i] models holds the first [i]
    entries of the result, their accumulated cost, and the reservation less
    one share per model. *)
Lemma allocate_before (l : list Entry) (st : Alloc) (i : nat) :
  (i <= length l)%nat -> assigned st = [] ->
  let before := fold_left allocStep (firstn i l) st in
  assigned before = firstn i (assigned (fold_left allocStep l st)) /\
  texSize before = (texSize st + totalCost (assigned before))%Z /\
  reserved before = (reserved st - Z.of_nat i * (512 * 512))%Z.
Proof.
  intros Hi Hst before.
  destruct (assigned_fold (firstn i l) st) as (l1 & E1 & F1 & T1 & R1).
  fold before in E1, T1, R1. rewrite Hst in E1. cbn [app] in E1.
  rewrite length_firstn, Nat.min_l in R1 by exact Hi.
  assert (L1 : length l1 = i).
  { rewrite <- (Forall2_length F1), length_firstn. now apply Nat.min_l. }
  split; [|split; [rewrite E1; exact T1|exact R1]].
  assert (S : fold_left allocStep l st = fold_left allocStep (skipn i l) before)
    by (unfold before; rewrite <- fold_left_app, firstn_skipn; reflexivity).
  rewrite S.
  destruct (assigned_fold (skipn i l) before) as (l2 & E2 & _).
  rewrite E2, E1, <- L1, firstn_app, Nat.sub_diag, firstn_all.
  cbn [firstn]. now rewrite app_nil_r.
Qed.

(** C1: the allocator processes the models in ascending weight order and
    returns them in that order, each with a tier between [Thumb] and its
    proposed tier.  After the pass the accumulated cost is the sum of the
    assigned tiers' costs and, when the model count times the cost of
    [Thumb] plus the reservation fits in 16384*16384, it is at most
    16384*16384 minus the remaining reservation.  When it does not fit,
    every model ends at [Thumb].  In every case the loop stops at each
    model: the tier a model gets is within the budget left by the cost of
    the models before it and by the remaining reservation, or it is
    [Thumb]; and every tier between that one and the proposed one was over
    that budget, so that a proposed tier that fits is kept. *)
Theorem budget_satisfaction (models : list Entry) :
  let sorted := sort ascending models in
  let n := Z.of_nat (length models) in
  let final := allocate sorted in
  (Permutation models sorted /\
   StronglySorted (fun a b => weight a <= weight b) sorted) /\
  Forall2 downgradeOf sorted (assigned final) /\
  texSize final = totalCost (assigned final) /\
  reserved final = (initialReserved (length models) - n * sizeMap Thumb)%Z /\
  ((n * sizeMap Thumb + reserved final <= 16384 * 16384)%Z ->
   (totalCost (assigned final) <= 16384 * 16384 - reserved final)%Z) /\
  ((n * sizeMap Thumb + initialReserved (length models) <= 16384 * 16384)%Z ->
   (totalCost (assigned final) <= 16384 * 16384 - reserved final)%Z) /\
  ((16384 * 16384 < n * sizeMap Thumb + reserved final)%Z ->
   Forall (fun e => quality e = Thumb) (assigned final)) /\
  (forall i m, nth_error sorted i = Some m ->
     let r := (initialReserved (length models) - (Z.of_nat i + 1) * (512 * 512))%Z in
     let t := totalCost (firstn i (assigned final)) in
     exists e, nth_error (assigned final) i = Some e /\
       model e = model m /\
       overBudget r t (quality e) = false /\
       ((16384 * 16384 - r < t + sizeMap (quality e))%Z -> quality e = Thumb) /\
       (forall q, quality_lt (quality e) q -> quality_le q (quality m) ->
                  (16384 * 16384 - r < t + sizeMap q)%Z) /\
       ((t + sizeMap (quality m) <= 16384 * 16384 - r)%Z -> quality e = quality m)).
Proof.
  intros sorted n final.
  assert (L : length sorted = length models) by apply sort_length.
  assert (U : final = fold_left allocStep sorted (allocStart (length models))).
  { unfold final. rewrite allocate_unfold, L. reflexivity. }
  destruct (assigned_fold sorted (allocStart (length models))) as (l' & E & F & T & R).
  rewrite <- U in E, T, R. cbn [allocStart assigned texSize reserved app] in E, T, R.
  rewrite L in R. fold n in R.
  assert (Fit : (initialReserved (length models) <= 16384 * 16384)%Z ->
                (totalCost (assigned final) <= 16384 * 16384 - reserved final)%Z).
  { intros H. rewrite E, <- (Z.add_0_l (totalCost l')), <- T, U.
    apply allocate_fits. cbn [allocStart texSize reserved]. lia. }
  split; [split; [apply sort_perm|apply ascending_sorted]|].
  split; [apply allocate_downgradeOf|].
  split; [rewrite T, E; lia|].
  split; [rewrite R; simpl sizeMap; lia|].
  split; [intros H; apply Fit; rewrite R in H; simpl sizeMap in H; lia|].
  split; [intros H; apply Fit; unfold initialReserved in *; simpl sizeMap in H; lia|].
  split.
  - intros H. rewrite R in H. simpl sizeMap in H.
    destruct (allocate_all_Thumb sorted (allocStart (length models))) as (l2 & E2 & A).
    { cbn [allocStart texSize reserved]. lia. }
    rewrite <- U in E2. cbn [allocStart assigned app] in E2. now rewrite E2.
  - intros i m Hm r t.
    assert (Hi : (i < length sorted)%nat) by (apply nth_error_Some; congruence).
    destruct (nth_error (assigned final) i) as [e|] eqn:He.
    2:{ apply nth_error_None in He. rewrite E, <- (Forall2_length F) in He. lia. }
    exists e. split; [reflexivity|].
    rewrite U in He.
    destruct (assigned_nth sorted (allocStart (length models)) i e He) as (m' & Hm' & Q).
    assert (m' = m) by congruence. subst m'. cbv zeta in Q.
    destruct (allocate_before sorted (allocStart (length models)) i) as (A1 & A2 & A3);
      [lia|reflexivity|].
    rewrite <- U in A1. rewrite A1 in A2.
    cbn [allocStart texSize reserved] in A2, A3. rewrite Z.add_0_l in A2.
    fold t in A2. rewrite A2, A3 in Q.
    replace (initialReserved (length models) - Z.of_nat i * (512 * 512) - 512 * 512)%Z
      with r in Q by (unfold r; lia).
    assert (Qe : quality e = downgrade tiersAboveThumb r t (quality m))
      by (rewrite Q; reflexivity).
    assert (X : overBudget r t (quality e) = false)
      by (rewrite Qe; apply downgrade_exit).
    split; [rewrite Q; reflexivity|]. split; [exact X|]. split; [|split].
    + intros O. destruct (overBudget_false _ _ _ X) as [Y|Y]; [lia|exact Y].
    + intros q Hq Hle. rewrite Qe in Hq.
      pose proof (downgrade_skipped r t (quality m) q Hq Hle) as O.
      unfold overBudget in O. apply andb_true_iff in O. destruct O as [O _].
      apply Z.ltb_lt in O. exact O.
    + intros O. rewrite Qe. apply downgrade_fits. exact O.
Qed.

(** C6: the allocator returns, for every input list and in the same order,
    the same models with the same weights, each at a tier between [Thumb]
    and its proposed tier; whatever the number of iterations, its loop never
    raises a tier. *)
Theorem downgrade_only (models : list Entry) :
  Forall2 downgradeOf models (assigned (allocate models)) /\
  (forall fuel r t q,
     quality_le Thumb (downgrade fuel r t q) /\ quality_le (downgrade fuel r t q) q).
Proof.
  split; [apply allocate_downgradeOf|intros; apply downgrade_range].
Qed.

Lemma budget_satisfaction_witness :
  (totalCost (assigned (allocate (sort ascending sceneEntries)))
   <= 16384 * 16384 - reserved (allocate (sort ascending sceneEntries)))%Z /\
  Forall (fun e => quality e = Thumb) (assigned (allocate (sort ascending crowdEntries))).
Proof.
  split.
  - pose proof (budget_satisfaction sceneEntries) as H. cbv zeta in H.
    destruct H as (_ & _ & _ & _ & H & _). apply H. vm_compute. discriminate.
  - pose proof (budget_satisfaction crowdEntries) as H. cbv zeta in H.
    destruct H as (_ & _ & _ & _ & _ & _ & H & _). apply H. vm_compute. reflexivity.
Defined.

(** ** Apply step *)

Lemma setValue_same (s : Qualities) (m : CVModel2) (q : EDerivativeQuality) :
  setValue s m q (name m) = q.
Proof. unfold setValue. now rewrite Nat.eqb_refl. Qed.

Lemma setValue_other (s : Qualities) (m : CVModel2) (q : EDerivativeQuality) (k : nat) :
  k <> name m -> setValue s m q k = s k.
Proof. unfold setValue. intros H. apply Nat.eqb_neq in H. now rewrite H. Qed.

(** An iteration touches the quality of its own model only. *)
Lemma applyEntry_other (s : Qualities) (e : Entry) (k : nat) :
  k <> name (model e) -> applyEntry s e k = s k.
Proof.
  intros H. unfold applyEntry.
  destruct (quality_eqb (quality e) (s (name (model e)))); [reflexivity|].
  destruct (quality_ltb (s (name (model e))) (quality e) && Qeq_bool (weight e) 0);
    [reflexivity|].
  destruct (select (model e) (quality e)) as [best|]; [|reflexivity].
  destruct (negb (quality_eqb best (s (name (model e))))); [|reflexivity].
  now apply setValue_other.
Qed.

Lemma applyEntry_invisible (s : Qualities) (e : Entry) :
  quality_le (s (name (model e))) (quality e) -> weight e == 0 -> applyEntry s e = s.
Proof.
  intros Hq Hw. unfold applyEntry.
  destruct (quality_eqb (quality e) (s (name (model e)))) eqn:Heq; [reflexivity|].
  assert (L : quality_ltb (s (name (model e))) (quality e) = true).
  { apply quality_ltb_lt. unfold quality_lt, quality_le, quality_eqb in *.
    apply Z.eqb_neq in Heq. lia. }
  apply Qeq_bool_iff in Hw. now rewrite L, Hw.
Qed.

Lemma applyEntry_downgrade (s : Qualities) (e : Entry) :
  quality_lt (quality e) (s (name (model e))) ->
  applyEntry s e (name (model e))
  = match select (model e) (quality e) with
    | Some best => best
    | None => s (name (model e))
    end.
Proof.
  intros Hq. unfold applyEntry, quality_lt in *.
  destruct (quality_eqb (quality e) (s (name (model e)))) eqn:Heq.
  { unfold quality_eqb in Heq. apply Z.eqb_eq in Heq. lia. }
  replace (quality_ltb (s (name (model e))) (quality e)) with false
    by (symmetry; apply Z.ltb_ge; lia).
  cbn [andb].
  destruct (select (model e) (quality e)) as [best|]; [|reflexivity].
  destruct (quality_eqb best (s (name (model e)))) eqn:Hb; cbn [negb].
  - apply quality_eqb_eq in Hb. now symmetry.
  - apply setValue_same.
Qed.

Lemma applyAll_invisible (l : list Entry) (s : Qualities) (k : nat) :
  (forall e, In e l -> name (model e) = k -> weight e == 0) ->
  s k = Thumb ->
  fold_left applyEntry l s k = Thumb.
Proof.
  revert s. induction l as [|e l IH]; intros s Hw Hs; cbn [fold_left]; [exact Hs|].
  apply IH; [intros e' Hin; apply Hw; now right|].
  destruct (Nat.eq_dec k (name (model e))) as [->|Hk].
  - rewrite applyEntry_invisible; [exact Hs| |apply Hw; [now left|reflexivity]].
    rewrite Hs. unfold quality_le. destruct (quality e); simpl; lia.
  - now rewrite applyEntry_other.
Qed.

(** C7: in the apply step, a model whose final tier is above its current
    tier and whose weight is 0 is left as it is; a final tier below the
    current tier is passed to the derivative collaborator whatever the
    weight, and the model takes the tier of the derivative returned (it
    keeps its tier when none is returned); a model at [Thumb] whose weight
    is 0 is at [Thumb] after the step and after the whole loop, whatever
    tiers were proposed. *)
Theorem no_upgrade_when_invisible (s : Qualities) (e : Entry) :
  let current := s (name (model e)) in
  (quality_lt current (quality e) -> weight e == 0 -> applyEntry s e = s) /\
  (quality_lt (quality e) current ->
   forall w : Q,
     applyEntry s (mkEntry (model e) w (relSize e) (quality e)) (name (model e))
     = match select (model e) (quality e) with
       | Some best => best
       | None => current
       end) /\
  (weight e == 0 -> current = Thumb -> applyEntry s e (name (model e)) = Thumb) /\
  (forall l : list Entry,
     (forall e', In e' l -> name (model e') = name (model e) -> weight e' == 0) ->
     current = Thumb ->
     fold_left applyEntry l s (name (model e)) = Thumb).
Proof.
  intros current. split; [|split; [|split]].
  - intros Hq Hw. apply applyEntry_invisible; [|exact Hw].
    unfold quality_lt, quality_le in *. fold current. lia.
  - intros Hq w.
    exact (applyEntry_downgrade s (mkEntry (model e) w (relSize e) (quality e)) Hq).
  - intros Hw Hc. rewrite applyEntry_invisible; [exact Hc| |exact Hw].
    fold current. rewrite Hc. unfold quality_le. destruct (quality e); simpl; lia.
  - intros l Hl Hc. now apply applyAll_invisible.
Qed.

Lemma no_upgrade_when_invisible_witness :
  applyEntry sceneQualities entryInvisible = sceneQualities /\
  applyEntry sceneQualities entryLower 1%nat = Low /\
  fold_left applyEntry [entryLower; entryInvisible] sceneQualities 0%nat = Thumb.
Proof.
  split; [|split].
  - apply (no_upgrade_when_invisible sceneQualities entryInvisible); reflexivity.
  - apply (no_upgrade_when_invisible sceneQualities entryLower). reflexivity.
  - apply (no_upgrade_when_invisible sceneQualities entryInvisible
             : _ /\ _ /\ _ /\ _); [|reflexivity].
    intros e' [<-|[<-|[]]]; [discriminate|reflexivity].
Defined.

(** ** Two passes in a row *)





Lemma Forall2_Forall_right {A B : Type} (P : A -> B -> Prop) (G : A -> Prop) (G' : B -> Prop)
      (l : list A) (l' : list B) :
  (forall a b, P a b -> G a -> G' b) ->
  Forall2 P l l' -> Forall G l -> Forall G' l'.
Proof.
  intros I H. induction H as [|a b l l' Hab H IH]; intros F; [constructor|].
  inversion F; subst. constructor; [eapply I; eassumption|]. now apply IH.
Qed.





Lemma applyAll_other (l : list Entry) (s : Qualities) (k : nat) :
  ~ In k (map (fun e => name (model e)) l) ->
  fold_left applyEntry l s k = s k.
Proof.
  revert s. induction l as [|e l IH]; intros s H; cbn [fold_left]; [reflexivity|].
  cbn [map In] in H. rewrite IH by tauto. apply applyEntry_other. intros K. apply H.
  now left.
Qed.

(** With a collaborator that returns the tier it is asked for, an entry
    whose weight is not 0, or whose tier is [Thumb], sets its model to its
    tier. *)
Lemma applyEntry_exact (s : Qualities) (e : Entry) :
  (weight e == 0 -> quality e = Thumb) ->
  select (model e) (quality e) = Some (quality e) ->
  applyEntry s e (name (model e)) = quality e.
Proof.
  intros Hw Hs. unfold applyEntry.
  destruct (quality_eqb (quality e) (s (name (model e)))) eqn:Heq.
  { apply quality_eqb_eq in Heq. now symmetry. }
  assert (G : quality_ltb (s (name (model e))) (quality e) && Qeq_bool (weight e) 0 = false).
  { destruct (Qeq_bool (weight e) 0) eqn:W; [|apply andb_false_r].
    apply Qeq_bool_iff in W. rewrite (Hw W), andb_true_r.
    unfold quality_ltb. apply Z.ltb_ge. destruct (s (name (model e))); simpl; lia. }
  rewrite G, Hs.
  replace (quality_eqb (quality e) (s (name (model e)))) with false.
  cbn [negb]. apply setValue_same.
Qed.

Lemma applyAll_exact (l : list Entry) (s : Qualities) :
  NoDup (map (fun e => name (model e)) l) ->
  Forall (fun e => weight e == 0 -> quality e = Thumb) l ->
  Forall (fun e => select (model e) (quality e) = Some (quality e)) l ->
  Forall (fun e => fold_left applyEntry l s (name (model e)) = quality e) l.
Proof.
  revert s. induction l as [|e l IH]; intros s N W X; [constructor|].
  cbn [map] in N. inversion N as [|k ks Hk N']; subst.
  inversion W; subst. inversion X; subst.
  cbn [fold_left]. constructor.
  - rewrite applyAll_other by assumption. now apply applyEntry_exact.
  - now apply IH.
Qed.


Lemma entries_facts (project : Vector3 -> Vector3) (components : list CVModel2)
      (s : Qualities) :
  Forall (fun e => In (model e) components /\ (weight e == 0 -> quality e = Thumb))
         (map (entryOf project s) components) /\
  map (fun e => name (model e)) (map (entryOf project s) components)
  = map name components.
Proof.
  split.
  - apply Forall_forall. intros e He. apply in_map_iff in He.
    destruct He as (m & <- & Hm). split; [exact Hm|].
    unfold entryOf. cbn [weight quality]. apply getQuality_zero.
  - rewrite map_map. reflexivity.
Qed.

(** What a pass assigns, under a collaborator that returns the tier it is
    asked for: each model ends at the tier the allocator gave it. *)
Lemma tick_assigns (project : Vector3 -> Vector3) (components : list CVModel2)
      (s : Qualities) :
  NoDup (map name components) ->
  (forall m, In m components -> forall q, select m q = Some q) ->
  Forall (fun e => tick project components s (name (model e)) = quality e)
         (assigned (allocate (sort ascending (map (entryOf project s) components)))).
Proof.
  intros N X. unfold tick.
  set (entries := map (entryOf project s) components).
  destruct (entries_facts project components s) as [F Names]. fold entries in F, Names.
  pose proof (sort_perm ascending entries) as P.
  pose proof (allocate_downgradeOf (sort ascending entries)) as D.
  assert (F' : Forall (fun e => In (model e) components /\ (weight e == 0 -> quality e = Thumb))
                      (assigned (allocate (sort ascending entries)))).
  { refine (Forall2_Forall_right _ _ _ _ _ _ D (Permutation_Forall P F)).
    intros a b (Hm & Hw & _ & Ht & Hq) [G1 G2].
    rewrite Hm, Hw. split; [exact G1|]. intros W. specialize (G2 W).
    rewrite G2 in Hq. unfold quality_le in *.
    destruct (quality b); simpl in *; congruence || lia. }
  apply applyAll_exact.
  - assert (E : map (fun e => name (model e)) (assigned (allocate (sort ascending entries)))
                = map (fun e => name (model e)) (sort ascending entries)).
    { clear - D. induction D as [|a b l l' H D IH]; [reflexivity|].
      cbn [map]. destruct H as (-> & _). now rewrite IH. }
    rewrite E. apply (Permutation_NoDup (l := map name components)); [|exact N].
    rewrite <- Names. now apply Permutation_map.
  - apply (Forall_impl _ (fun e H => proj2 H) F').
  - apply (Forall_impl _ (fun e H => X (model e) (proj1 H) (quality e)) F').
Qed.




(** ** The rank-based pass of [tock] *)

Lemma rankQuality_table (i : nat) :
  (DerivativesController.rankQuality i = High <-> (i < 2)%nat) /\
  (DerivativesController.rankQuality i = Medium <-> (2 <= i < 5)%nat) /\
  (DerivativesController.rankQuality i = Low <-> (5 <= i < 10)%nat) /\
  (DerivativesController.rankQuality i = Thumb <-> (10 <= i)%nat).
Proof.
  unfold DerivativesController.rankQuality.
  destruct (Nat.ltb_spec i 2), (Nat.ltb_spec i 5), (Nat.ltb_spec i 10);
    repeat split; intros; try lia; try discriminate; reflexivity.
Qed.

Lemma tockStep_other (i : nat) (e : DerivativesController.Entry)
      (st : Qualities * bool) (k : nat) :
  k <> name (DerivativesController.model e) ->
  fst (DerivativesController.tockStep i e st) k = fst st k.
Proof.
  intros H. unfold DerivativesController.tockStep.
  destruct (quality_eqb _ _); [reflexivity|].
  destruct (select _ _) as [best|]; [|reflexivity].
  destruct (negb _); [|reflexivity].
  cbn [fst]. now apply setValue_other.
Qed.

Lemma tockStep_same (i : nat) (e : DerivativesController.Entry) (st : Qualities * bool) :
  fst (DerivativesController.tockStep i e st) (name (DerivativesController.model e))
  = settled (DerivativesController.model e)
            (fst st (name (DerivativesController.model e)))
            (DerivativesController.rankQuality i).
Proof.
  unfold DerivativesController.tockStep, settled.
  destruct (quality_eqb _ _); [reflexivity|].
  destruct (select _ _) as [best|]; [|reflexivity].
  destruct (quality_eqb best _) eqn:B; cbn [negb fst].
  - apply quality_eqb_eq in B. now symmetry.
  - apply setValue_same.
Qed.

Lemma tockLoop_other (l : list DerivativesController.Entry) (i : nat)
      (st : Qualities * bool) (k : nat) :
  ~ In k (map (fun e => name (DerivativesController.model e)) l) ->
  fst (DerivativesController.tockLoop i l st) k = fst st k.
Proof.
  revert i st. induction l as [|e l IH]; intros i st H;
    cbn [DerivativesController.tockLoop]; [reflexivity|].
  cbn [map In] in H. rewrite IH by tauto. apply tockStep_other.
  intros K. apply H. now left.
Qed.

(** The model at position [j] of the list ends at the tier asked for at
    index [i + j]. *)
Lemma tockLoop_nth (l : list DerivativesController.Entry) (i j : nat)
      (st : Qualities * bool) (e : DerivativesController.Entry) :
  NoDup (map (fun e => name (DerivativesController.model e)) l) ->
  nth_error l j = Some e ->
  fst (DerivativesController.tockLoop i l st) (name (DerivativesController.model e))
  = settled (DerivativesController.model e)
            (fst st (name (DerivativesController.model e)))
            (DerivativesController.rankQuality (i + j)).
Proof.
  revert i j st. induction l as [|h l IH]; intros i j st N H.
  - destruct j; discriminate.
  - cbn [map] in N. inversion N as [|k ks Hk N']; subst.
    cbn [DerivativesController.tockLoop]. destruct j as [|j]; cbn [nth_error] in H.
    + inversion H; subst. rewrite tockLoop_other by assumption.
      rewrite Nat.add_0_r. apply tockStep_same.
    + rewrite (IH (S i) j _ N' H).
      rewrite tockStep_other, Nat.add_succ_r; [reflexivity|].
      intros K. apply Hk. rewrite <- K.
      apply (in_map (fun e => name (DerivativesController.model e))).
      now apply nth_error_In with j.
Qed.

(** C10, as amended: [tock] sorts the models by descending weight and asks,
    for the model at rank [i], for tier [High] when [i] is 0 or 1, [Medium]
    from 2 to 4, [Low] from 5 to 9 and [Thumb] from 10 on; no threshold,
    margin or budget enters.  Each model ends at the tier of the derivative
    the collaborator returns for that request, and keeps its tier when the
    request is its current tier or nothing is returned; it ends at the tier
    of its rank when the collaborator returns a derivative of the tier
    asked for. *)
Theorem tock_rank (project : Vector3 -> Vector3) (components : list CVModel2)
        (s : Qualities) :
  let models :=
    sort DerivativesController.descending
         (map (DerivativesController.entryOf project) components) in
  (Permutation (map (DerivativesController.entryOf project) components) models /\
   StronglySorted
     (fun a b => DerivativesController.weight b <= DerivativesController.weight a) models) /\
  (forall i,
     (DerivativesController.rankQuality i = High <-> (i < 2)%nat) /\
     (DerivativesController.rankQuality i = Medium <-> (2 <= i < 5)%nat) /\
     (DerivativesController.rankQuality i = Low <-> (5 <= i < 10)%nat) /\
     (DerivativesController.rankQuality i = Thumb <-> (10 <= i)%nat)) /\
  (NoDup (map name components) ->
   forall i e, nth_error models i = Some e ->
     let final := fst (DerivativesController.tock true (Some project) components s)
                      (name (DerivativesController.model e)) in
     final = settled (DerivativesController.model e)
                     (s (name (DerivativesController.model e)))
                     (DerivativesController.rankQuality i) /\
     (select (DerivativesController.model e) (DerivativesController.rankQuality i)
      = Some (DerivativesController.rankQuality i) ->
      final = DerivativesController.rankQuality i) /\
     (select (DerivativesController.model e) (DerivativesController.rankQuality i) = None ->
      final = s (name (DerivativesController.model e)))).
Proof.
  intros models.
  split; [split; [apply sort_perm|apply descending_sorted]|].
  split; [apply rankQuality_table|].
  intros N i e H final.
  assert (F : final = settled (DerivativesController.model e)
                              (s (name (DerivativesController.model e)))
                              (DerivativesController.rankQuality i)).
  { unfold final. cbn [DerivativesController.tock]. fold models.
    rewrite (tockLoop_nth models 0 i (s, false) e); [reflexivity| |exact H].
    apply (Permutation_NoDup (l := map name components)); [|exact N].
    replace (map name components)
      with (map (fun e => name (DerivativesController.model e))
                (map (DerivativesController.entryOf project) components))
      by (rewrite map_map; reflexivity).
    apply Permutation_map, sort_perm. }
  split; [exact F|]. rewrite F. unfold settled.
  split; intros X; rewrite X;
    destruct (quality_eqb _ _) eqn:Q; try reflexivity.
  apply quality_eqb_eq in Q. now symmetry.
Qed.

Lemma tock_rank_witness :
  fst (DerivativesController.tock true (Some identityCamera) sceneModels sceneQualities) 3%nat
  = Medium /\
  fst (DerivativesController.tock true (Some identityCamera) sceneModels sceneQualities) 0%nat
  = Thumb.
Proof.
  assert (N : NoDup (map name sceneModels)).
  { vm_compute. repeat constructor; cbn [In]; intuition discriminate. }
  split.
  - refine (proj1 (proj2 (proj2 (tock_rank identityCamera sceneModels sceneQualities)) N 2%nat
              (DerivativesController.entryOf identityCamera (mkModel 3 boxFull exactSelect)) _)).
    vm_compute. reflexivity.
  - refine (proj1 (proj2 (proj2 (tock_rank identityCamera sceneModels sceneQualities)) N 15%nat
              (DerivativesController.entryOf identityCamera (mkModel 0 boxWide onlyHigh)) _)).
    vm_compute. reflexivity.
Defined.

(** C10 as stated fails when a derivative is missing: in the scene model 0
    has the lowest weight and rank 15, a rank of [Thumb], and holds a single
    derivative, of tier [High].  Starting at [High] it ends at [High];
    starting at [Thumb] it ends at [Thumb]: its tier is not fixed by its
    rank. *)
Lemma tock_rank_counterexample :
  let models :=
    sort DerivativesController.descending
         (map (DerivativesController.entryOf identityCamera) sceneModels) in
  NoDup (map name sceneModels) /\
  nth_error (map (fun e => name (DerivativesController.model e)) models) 15 = Some 0%nat /\
  DerivativesController.rankQuality 15 = Thumb /\
  fst (DerivativesController.tock true (Some identityCamera) sceneModels allHigh) 0%nat
  = High /\
  fst (DerivativesController.tock true (Some identityCamera) sceneModels sceneQualities) 0%nat
  = Thumb.
Proof.
  intros models.
  split; [vm_compute; repeat constructor; cbn [In]; intuition discriminate|].
  repeat split; vm_compute; reflexivity.
Qed.

(** * Further properties of the level-of-detail passes *)

(** ** Projector *)

Lemma Math_min_r (a b : Q) : Math_min a b <= b.
Proof. destruct (Math_min_cases a b) as [[H E]|[H E]]; rewrite E; lra. Qed.

Lemma Math_min_glb (a b c : Q) : c <= Math_min a b <-> c <= a /\ c <= b.
Proof.
  destruct (Math_min_cases a b) as [[H E]|[H E]]; rewrite E; split; intros; lra.
Qed.

Lemma expandByPoint_new (b : Box3) (p : Vector3) : containsPoint (expandByPoint b p) p.
Proof.
  unfold containsPoint, expandByPoint; cbn [min max x y z].
  repeat split; first [apply Math_min_r | apply Math_max_r].
Qed.

Lemma expandByPoint_keeps (b : Box3) (p q : Vector3) :
  containsPoint b q -> containsPoint (expandByPoint b p) q.
Proof.
  unfold containsPoint, expandByPoint; cbn [min max x y z].
  intros ((A1 & A2) & (B1 & B2) & (C1 & C2)).
  repeat split;
    first [eapply Qle_trans; [apply Math_min_l|eassumption]
          |eapply Qle_trans; [eassumption|apply Math_max_l]].
Qed.

Lemma expandByPoint_inside (outer b : Box3) (p : Vector3) :
  insideBox outer b -> containsPoint outer p -> insideBox outer (expandByPoint b p).
Proof.
  unfold insideBox, containsPoint, expandByPoint; cbn [min max x y z].
  intros ((A1 & A2) & (B1 & B2) & (C1 & C2)) ((P1 & P2) & (P3 & P4) & (P5 & P6)).
  repeat split;
    first [apply Math_min_glb; split; assumption
          |apply Math_max_lub; split; assumption].
Qed.

Lemma fold_expand_contains (pts : list Vector3) (b : Box3) (q : Vector3) :
  containsPoint b q \/ In q pts -> containsPoint (fold_left expandByPoint pts b) q.
Proof.
  revert b. induction pts as [|p pts IH]; cbn [fold_left In]; intros b H.
  - destruct H as [H|[]]. exact H.
  - apply IH. destruct H as [H|[H|H]].
    + left. now apply expandByPoint_keeps.
    + left. subst q. apply expandByPoint_new.
    + now right.
Qed.

Lemma fold_expand_inside (outer : Box3) (pts : list Vector3) (b : Box3) :
  insideBox outer b -> (forall p, In p pts -> containsPoint outer p) ->
  insideBox outer (fold_left expandByPoint pts b).
Proof.
  revert b. induction pts as [|p pts IH]; cbn [fold_left]; intros b Hb Hp; [exact Hb|].
  apply IH.
  - apply expandByPoint_inside; [exact Hb|]. apply Hp. now left.
  - intros q Hq. apply Hp. now right.
Qed.

(** X1: the NDC box is the bounding box of the eight projected corners: it
    holds each of them, and it lies in every box that holds them all. *)
Theorem projectBox_bounding (project : Vector3 -> Vector3) (b : Box3) :
  (forall c, In c (corners b) -> containsPoint (projectBox project b) (project c)) /\
  (forall outer,
     (forall c, In c (corners b) -> containsPoint outer (project c)) ->
     insideBox outer (projectBox project b)).
Proof.
  unfold projectBox, corners. cbn [map]. split.
  - intros c Hc. apply fold_expand_contains. cbn [In] in Hc.
    destruct Hc as [<-|Hc].
    + left. unfold containsPoint; cbn [min max]. repeat split; apply Qle_refl.
    + right. cbn [In]. repeat (destruct Hc as [<-|Hc]; [tauto|]). destruct Hc.
  - intros outer H. apply fold_expand_inside.
    + specialize (H _ (or_introl eq_refl)).
      unfold insideBox, containsPoint in *; cbn [min max] in *. tauto.
    + intros p Hp. cbn [In] in Hp.
      repeat (destruct Hp as [<-|Hp]; [apply H; cbn [In]; tauto|]). destruct Hp.
Qed.

Lemma projectBox_bounding_witness :
  insideBox boxFull (projectBox identityCamera boxWide).
Proof.
  apply (projectBox_bounding identityCamera boxWide).
  intros c Hc. cbn [corners In] in Hc.
  repeat (destruct Hc as [<-|Hc];
          [unfold containsPoint; repeat split; vm_compute; discriminate|]).
  destruct Hc.
Defined.

(** ** Scorer *)

Lemma Math_max3_zero (a b : Q) : Math_max3 a b 0 == 0 <-> a <= 0 /\ b <= 0.
Proof.
  pose proof (Math_max3_nonneg a b) as N. split.
  - intros E. assert (L : Math_max3 a b 0 <= 0) by lra.
    unfold Math_max3 in L. apply Math_max_lub in L. destruct L as [L _].
    now apply Math_max_lub in L.
  - intros [A B]. apply Qle_antisym; [|exact N].
    unfold Math_max3. apply Math_max_lub. split; [|lra].
    apply Math_max_lub. split; assumption.
Qed.

Lemma Qinv_unit (d : Q) : 0 <= d -> (1 / (1 + d) == 1 <-> d == 0).
Proof.
  intros Hd. split.
  - intros E. assert (F : 1 / (1 + d) * (1 + d) == 1) by (field; lra).
    rewrite E in F. lra.
  - intros E. rewrite E. reflexivity.
Qed.

(** X2: [maxCenterWeight] is 1 for every box that crosses the centre of the
    screen on both axes, and it never exceeds 1, in both files. *)
Theorem maxCenterWeight_one (b : Box3) :
  (crossesCenter b ->
   OrbitNavigation.maxCenterWeight b == 1 /\
   DerivativesController.maxCenterWeight b == 1) /\
  OrbitNavigation.maxCenterWeight b <= 1 /\
  DerivativesController.maxCenterWeight b <= 1.
Proof.
  split.
  - assert (H : crossesCenter b -> OrbitNavigation.maxCenterWeight b == 1).
    { unfold OrbitNavigation.maxCenterWeight, crossesCenter. cbv zeta.
      pose proof (Math_max3_nonneg (- x (max b)) (x (min b))) as Hx.
      pose proof (Math_max3_nonneg (- y (max b)) (y (min b))) as Hy.
      pose proof (Math_max3_zero (- x (max b)) (x (min b))) as Zx.
      pose proof (Math_max3_zero (- y (max b)) (y (min b))) as Zy.
      set (dx := Math_max3 (- x (max b)) (x (min b)) 0) in *.
      set (dy := Math_max3 (- y (max b)) (y (min b)) 0) in *.
      assert (E : 1 + dx + dy == 1 + (dx + dy)) by ring.
      rewrite E, Qinv_unit by lra.
      intros [[A B] [C D]].
      assert (X0 : dx == 0) by (apply Zx; split; lra).
      assert (Y0 : dy == 0) by (apply Zy; split; lra). lra. }
    intros C. split; [now apply H|]. rewrite maxCenterWeight_agree. now apply H.
  - pose proof (maxCenterWeight_range b) as [_ R].
    split; [exact R|]. now rewrite maxCenterWeight_agree.
Qed.

Lemma maxCenterWeight_one_witness :
  crossesCenter squareCentred /\
  OrbitNavigation.maxCenterWeight squareCentred == 1 /\
  DerivativesController.maxCenterWeight squareCentred == 1.
Proof.
  assert (C : crossesCenter squareCentred).
  { unfold crossesCenter, squareCentred; cbn [min max x y]. repeat split; lra. }
  split; [exact C|]. exact (proj1 (maxCenterWeight_one squareCentred) C).
Defined.

(** X3: [depthWeight] is 0 exactly when the depth range lies wholly before
    the near plane or beyond the far plane, or when it is not strictly
    inside them and stays between -2 and 2. *)
Theorem depthWeight_zero (zmin zmax : Q) :
  depthWeight zmin zmax == 0 <->
  zmax < -1 \/ 1 < zmin \/ (~ (-1 < zmin /\ zmax < 1) /\ -2 <= zmin /\ zmax <= 2).
Proof.
  unfold depthWeight.
  destruct (Qltb_spec zmax (-1)) as [A|A]; [cbn [orb]; split; [tauto|reflexivity]|].
  destruct (Qltb_spec 1 zmin) as [B|B]; [cbn [orb]; split; [tauto|reflexivity]|].
  cbn [orb].
  destruct (Qltb_spec (-1) zmin) as [C|C]; destruct (Qltb_spec zmax 1) as [D|D];
    cbn [andb]; try (split; [intros H; discriminate H|intros [H|[H|[H _]]]; tauto || lra]).
  all: pose proof (Math_max_l 1 (zmax - 1)) as M1;
       pose proof (Math_max_r 1 (zmax - 1)) as M2;
       pose proof (Math_min_l (-1) (zmin + 1)) as N1;
       pose proof (Math_min_r (-1) (zmin + 1)) as N2;
       pose proof (Math_max_lub 1 (zmax - 1) 1) as M3;
       pose proof (Math_min_glb (-1) (zmin + 1) (-1)) as N3;
       set (hi := Math_max 1 (zmax - 1)) in *;
       set (lo := Math_min (-1) (zmin + 1)) in *;
       assert (P : 0 < hi - lo) by lra;
       assert (F : 2 / (hi - lo) * (hi - lo) == 2) by (field; lra);
       split.
  all: try (intros E; right; right;
            assert (G : 2 / (hi - lo) == 1) by lra;
            rewrite G in F;
            split; [tauto|]; split; lra).
  all: intros [H|[H|(_ & H1 & H2)]]; try lra;
       assert (Mh : hi <= 1) by (apply M3; split; lra);
       assert (Nl : -1 <= lo) by (apply N3; split; lra);
       assert (G : hi - lo == 2) by lra;
       rewrite G; reflexivity.
Qed.



(** ** Classifier *)

(** X5: the proposed tier grows with the weight and with the current tier. *)
Theorem getQuality_monotone (c1 c2 : EDerivativeQuality) (w1 w2 : Q) :
  quality_le c1 c2 -> w1 <= w2 ->
  quality_le (getQuality c1 w1) (getQuality c2 w2).
Proof.
  unfold quality_le.
  destruct c1, c2; cbn [qval]; intros Hc Hw; try lia;
    open_getQuality; split_comparisons; cbn [qval]; lia.
Qed.

Lemma getQuality_monotone_witness :
  quality_le (getQuality Low 0.05) (getQuality Medium 0.2).
Proof.
  apply (getQuality_monotone Low Medium 0.05 0.2); vm_compute; discriminate.
Defined.

(** X6: a model keeps its tier when its weight lies in the band of that
    tier: below 0.05 for [Thumb], from 0.03 to 0.12 for [Low], from 0.10
    to 0.32 for [Medium], from 0.3 on for [High], the upper bound excluded;
    it leaves its tier when its weight is under the lower bound of the band
    or over its upper bound. *)
Theorem getQuality_keeps (q : EDerivativeQuality) (w : Q) :
  (keepsTier q w -> getQuality q w = q) /\
  (leavesTier q w -> getQuality q w <> q).
Proof.
  destruct q; cbn [keepsTier leavesTier]; open_getQuality; split_comparisons;
    unfold OrbitNavigation.hyst in *;
    (split; intros H;
     [ first [ reflexivity
             | exfalso;
               match type of H with
               | _ /\ _ => destruct H; lra
               | _ => lra
               end ]
     | first [ discriminate
             | exfalso;
               match type of H with
               | _ \/ _ => destruct H; lra
               | _ => lra
               end ] ]).
Qed.

Lemma getQuality_keeps_witness :
  (keepsTier Low 0.11 /\ getQuality Low 0.11 = Low) /\
  (leavesTier Low 0.13 /\ getQuality Low 0.13 <> Low).
Proof.
  assert (K : keepsTier Low 0.11) by (cbn [keepsTier]; split; lra).
  assert (L : leavesTier Low 0.13) by (cbn [leavesTier]; right; lra).
  split; split; [exact K| |exact L|].
  - exact (proj1 (getQuality_keeps Low 0.11) K).
  - exact (proj2 (getQuality_keeps Low 0.13) L).
Defined.

(** ** Allocator *)

Lemma sizeMap_High_most (q : EDerivativeQuality) : (sizeMap q <= 4096 * 4096)%Z.
Proof. destruct q; simpl; lia. Qed.

(** With room for the dearest tier at every remaining model, the loop
    leaves the list as it is. *)
Lemma allocate_roomy (l : list Entry) (st : Alloc) :
  (63 * (512 * 512) * Z.of_nat (length l) <= room st)%Z ->
  assigned (fold_left allocStep l st) = assigned st ++ l.
Proof.
  revert st. induction l as [|m l IH]; intros st H; cbn [fold_left].
  - now rewrite app_nil_r.
  - unfold room in H. cbn [length] in H. pose proof (sizeMap_High_most (quality m)) as Hq.
    assert (D : downgrade tiersAboveThumb (reserved st - 512 * 512) (texSize st) (quality m)
                = quality m) by (apply downgrade_fits; lia).
    rewrite IH.
    + cbn [allocStep assigned]. rewrite D, <- app_assoc. destruct m; reflexivity.
    + unfold room. cbn [allocStep reserved texSize]. rewrite D. lia.
Qed.

(** X7: with at most fifteen models the allocator downgrades nothing,
    whatever tiers are proposed; with sixteen models it can. *)
Theorem allocate_small_scene (models : list Entry) :
  ((length models <= 15)%nat -> assigned (allocate models) = models) /\
  (length sixteenEntries = 16%nat /\
   assigned (allocate sixteenEntries) <> sixteenEntries).
Proof.
  split.
  - intros H. rewrite allocate_unfold.
    rewrite allocate_roomy; [reflexivity|].
    unfold room, allocStart, initialReserved. cbn [reserved texSize]. lia.
  - split; [reflexivity|]. intros E.
    apply (f_equal (fun l => map quality l)) in E. vm_compute in E. discriminate E.
Qed.

Lemma allocate_small_scene_witness :
  assigned (allocate [entryLower; entryInvisible]) = [entryLower; entryInvisible].
Proof.
  apply (allocate_small_scene [entryLower; entryInvisible]). cbn [length]. lia.
Defined.

(** The tier the loop returns depends on the room and on the proposed tier
    only, and grows with both. *)
Lemma downgrade_monotone (r1 t1 r2 t2 : Z) (q1 q2 : EDerivativeQuality) :
  (16384 * 16384 - r2 - t2 <= 16384 * 16384 - r1 - t1)%Z ->
  quality_le q2 q1 ->
  quality_le (downgrade tiersAboveThumb r2 t2 q2) (downgrade tiersAboveThumb r1 t1 q1).
Proof.
  unfold tiersAboveThumb, quality_le.
  intros Hr Hq.
  destruct q1, q2; cbn [qval] in Hq; try lia; cbn [downgrade decrement];
    unfold overBudget, quality_ltb; cbn [qval sizeMap];
    repeat match goal with
    | |- context [(?a <? ?b)%Z] => destruct (Z.ltb_spec a b)
    end; cbn [andb qval]; lia.
Qed.

Lemma allocStep_room (st : Alloc) (m : Entry) : (room (allocStep st m) <= room st)%Z.
Proof.
  unfold room. cbn [allocStep reserved texSize].
  pose proof (sizeMap_Thumb_least
                (downgrade tiersAboveThumb (reserved st - 512 * 512) (texSize st) (quality m))) as H.
  simpl sizeMap in H at 1. lia.
Qed.

(** The room never grows along the loop. *)
Lemma allocate_room (l : list Entry) (st : Alloc) :
  (room (fold_left allocStep l st) <= room st)%Z.
Proof.
  revert st. induction l as [|m l IH]; intros st; cbn [fold_left]; [lia|].
  pose proof (IH (allocStep st m)). pose proof (allocStep_room st m). lia.
Qed.

(** X8: a model processed later, that is of greater or equal weight, never
    ends above a model processed earlier whose proposed tier is at least as
    high: the texture space left shrinks from one model to the next. *)
Theorem allocate_later_not_higher (models : list Entry) (i j : nat)
        (mi mj ai aj : Entry) :
  (i <= j)%nat ->
  nth_error models i = Some mi -> nth_error models j = Some mj ->
  nth_error (assigned (allocate models)) i = Some ai ->
  nth_error (assigned (allocate models)) j = Some aj ->
  quality_le (quality mj) (quality mi) ->
  quality_le (quality aj) (quality ai).
Proof.
  intros Hij Hi Hj Ai Aj Hq. rewrite allocate_unfold in Ai, Aj.
  destruct (assigned_nth models (allocStart (length models)) i ai Ai) as (mi' & Hi' & Ei).
  destruct (assigned_nth models (allocStart (length models)) j aj Aj) as (mj' & Hj' & Ej).
  assert (mi' = mi) by congruence. assert (mj' = mj) by congruence. subst mi' mj'.
  cbv zeta in Ei, Ej. rewrite Ei, Ej. cbn [quality].
  apply downgrade_monotone; [|exact Hq].
  set (start := allocStart (length models)).
  assert (F : firstn j models = firstn i models ++ skipn i (firstn j models)).
  { rewrite <- (firstn_skipn i (firstn j models)) at 1.
    rewrite firstn_firstn, Nat.min_l by exact Hij. reflexivity. }
  rewrite F, fold_left_app.
  pose proof (allocate_room (skipn i (firstn j models))
                (fold_left allocStep (firstn i models) start)) as R.
  unfold room in R. lia.
Qed.

Lemma allocate_later_not_higher_witness :
  quality_le Medium High.
Proof.
  refine (allocate_later_not_higher sixteenEntries 0 15
            (mkEntry (mkModel 0 boxFull exactSelect) 1 1 High)
            (mkEntry (mkModel 15 boxFull exactSelect) 1 1 High)
            (mkEntry (mkModel 0 boxFull exactSelect) 1 1 High)
            (mkEntry (mkModel 15 boxFull exactSelect) 1 1 Medium)
            _ _ _ _ _ _).
  - lia.
  - reflexivity.
  - reflexivity.
  - vm_compute. reflexivity.
  - vm_compute. reflexivity.
  - vm_compute. discriminate.
Defined.

(** ** Whole passes *)

Lemma assigned_names (l : list Entry) :
  map (fun e => name (model e)) (assigned (allocate l))
  = map (fun e => name (model e)) l.
Proof.
  pose proof (allocate_downgradeOf l) as D. symmetry.
  induction D as [|a b l1 l2 H D IH]; [reflexivity|].
  cbn [map]. destruct H as (-> & _). now rewrite IH.
Qed.

Lemma tick_names (project : Vector3 -> Vector3) (components : list CVModel2)
      (s : Qualities) :
  Permutation
    (map name components)
    (map (fun e => name (model e))
         (assigned (allocate (sort ascending (map (entryOf project s) components))))).
Proof.
  rewrite assigned_names.
  replace (map name components)
    with (map (fun e => name (model e)) (map (entryOf project s) components))
    by (rewrite map_map; reflexivity).
  apply Permutation_map, sort_perm.
Qed.

Lemma tock_names (project : Vector3 -> Vector3) (components : list CVModel2) :
  Permutation
    (map name components)
    (map (fun e => name (DerivativesController.model e))
         (sort DerivativesController.descending
               (map (DerivativesController.entryOf project) components))).
Proof.
  replace (map name components)
    with (map (fun e => name (DerivativesController.model e))
              (map (DerivativesController.entryOf project) components))
    by (rewrite map_map; reflexivity).
  apply Permutation_map, sort_perm.
Qed.

(** X9: neither pass touches the quality of a model that is not in the list
    of components it was given. *)
Theorem passes_frame (project : Vector3 -> Vector3) (components : list CVModel2)
        (s : Qualities) (k : nat) :
  ~ In k (map name components) ->
  tick project components s k = s k /\
  forall enabled camera,
    fst (DerivativesController.tock enabled camera components s) k = s k.
Proof.
  intros H. split.
  - unfold tick. apply applyAll_other. intros K. apply H.
    apply (Permutation_in k (Permutation_sym (tick_names project components s)) K).
  - intros enabled camera. unfold DerivativesController.tock.
    destruct enabled; [|reflexivity]. destruct camera as [p|]; [|reflexivity].
    rewrite tockLoop_other; [reflexivity|]. intros K. apply H.
    apply (Permutation_in k (Permutation_sym (tock_names p components)) K).
Qed.

Lemma passes_frame_witness :
  tick identityCamera sceneModels sceneQualities 99%nat = sceneQualities 99%nat.
Proof.
  assert (H : ~ In 99%nat (map name sceneModels))
    by (vm_compute; intuition discriminate).
  exact (proj1 (passes_frame identityCamera sceneModels sceneQualities 99 H)).
Defined.

(** A loop whose every iteration leaves the state as it is leaves the state
    as it is. *)
Lemma tockLoop_fixed (l : list DerivativesController.Entry) (i : nat)
      (st : Qualities * bool) :
  (forall j e, nth_error l j = Some e -> DerivativesController.tockStep (i + j) e st = st) ->
  DerivativesController.tockLoop i l st = st.
Proof.
  revert i. induction l as [|e l IH]; intros i H; cbn [DerivativesController.tockLoop];
    [reflexivity|].
  rewrite <- (Nat.add_0_r i) at 2. rewrite (H 0%nat e eq_refl).
  apply IH. intros j e' He'. rewrite Nat.add_succ_l, <- Nat.add_succ_r.
  now apply (H (S j)).
Qed.

(** An iteration does nothing on a model that is at the tier the same
    iteration gave it. *)
Lemma tockStep_settled (i : nat) (e : DerivativesController.Entry)
      (s : Qualities) (c : bool) (old : EDerivativeQuality) :
  s (name (DerivativesController.model e))
  = settled (DerivativesController.model e) old (DerivativesController.rankQuality i) ->
  DerivativesController.tockStep i e (s, c) = (s, c).
Proof.
  unfold DerivativesController.tockStep, settled. cbn [fst]. intros H.
  destruct (quality_eqb (DerivativesController.rankQuality i) old) eqn:E.
  - apply quality_eqb_eq in E. rewrite H, E, quality_eqb_refl. reflexivity.
  - destruct (quality_eqb (DerivativesController.rankQuality i)
                (s (name (DerivativesController.model e)))); [reflexivity|].
    destruct (select (DerivativesController.model e) (DerivativesController.rankQuality i))
      as [best|]; [|reflexivity].
    rewrite H, quality_eqb_refl. reflexivity.
Qed.

(** X10: [tock] is idempotent whatever the derivative collaborator returns:
    run again on the qualities it has produced, with the same camera and
    models, it changes nothing and reports no change. *)
Theorem tock_idempotent (enabled : bool) (camera : option (Vector3 -> Vector3))
        (components : list CVModel2) (s : Qualities) :
  NoDup (map name components) ->
  let s' := fst (DerivativesController.tock enabled camera components s) in
  DerivativesController.tock enabled camera components s' = (s', false).
Proof.
  intros N s'. unfold DerivativesController.tock in *.
  destruct enabled; [|reflexivity]. destruct camera as [project|]; [|reflexivity].
  set (models := sort DerivativesController.descending
                      (map (DerivativesController.entryOf project) components)) in *.
  assert (N' : NoDup (map (fun e => name (DerivativesController.model e)) models)).
  { apply (Permutation_NoDup (tock_names project components) N). }
  apply tockLoop_fixed. intros j e He. cbn [Nat.add].
  apply tockStep_settled with (old := s (name (DerivativesController.model e))).
  unfold s'. rewrite (tockLoop_nth models 0 j (s, false) e N' He). reflexivity.
Qed.

Lemma tock_idempotent_witness :
  let s' := fst (DerivativesController.tock true (Some identityCamera) sceneModels sceneQualities) in
  DerivativesController.tock true (Some identityCamera) sceneModels s' = (s', false).
Proof.
  assert (N : NoDup (map name sceneModels)).
  { vm_compute. repeat constructor; cbn [In]; intuition discriminate. }
  exact (tock_idempotent true (Some identityCamera) sceneModels sceneQualities N).
Defined.

Lemma tockStep_cases (i : nat) (e : DerivativesController.Entry) (st : Qualities * bool) :
  DerivativesController.tockStep i e st = st \/
  exists best,
    best <> fst st (name (DerivativesController.model e)) /\
    DerivativesController.tockStep i e st
    = (setValue (fst st) (DerivativesController.model e) best, true).
Proof.
  unfold DerivativesController.tockStep.
  destruct (quality_eqb _ _); [now left|].
  destruct (select _ _) as [best|]; [|now left].
  destruct (quality_eqb best _) eqn:B; cbn [negb]; [now left|].
  right. exists best. split; [|reflexivity].
  intros E. rewrite E, quality_eqb_refl in B. discriminate B.
Qed.

Lemma tockLoop_flag_kept (l : list DerivativesController.Entry) (i : nat) (s : Qualities) :
  snd (DerivativesController.tockLoop i l (s, true)) = true.
Proof.
  revert i s. induction l as [|e l IH]; intros i s; cbn [DerivativesController.tockLoop];
    [reflexivity|].
  destruct (tockStep_cases i e (s, true)) as [E|(best & _ & E)]; rewrite E; apply IH.
Qed.

Lemma tockLoop_flag (l : list DerivativesController.Entry) (i : nat) (s : Qualities) :
  NoDup (map (fun e => name (DerivativesController.model e)) l) ->
  let r := DerivativesController.tockLoop i l (s, false) in
  (snd r = false -> fst r = s) /\
  (snd r = true ->
   exists e, In e l /\
             fst r (name (DerivativesController.model e))
             <> s (name (DerivativesController.model e))).
Proof.
  revert i s. induction l as [|e l IH]; intros i s N; cbn [DerivativesController.tockLoop].
  - cbn [fst snd]. split; [reflexivity|discriminate].
  - cbn [map] in N. inversion N as [|k ks Hk N']; subst.
    destruct (tockStep_cases i e (s, false)) as [E|(best & Hb & E)]; rewrite E.
    + destruct (IH (S i) s N') as [A B]. split; [exact A|].
      intros H. destruct (B H) as (e' & He' & D). exists e'. split; [now right|exact D].
    + cbn [fst] in *. split.
      * intros H. rewrite tockLoop_flag_kept in H. discriminate H.
      * intros _. exists e. split; [now left|].
        rewrite tockLoop_other by exact Hk. cbn [fst].
        rewrite setValue_same. exact Hb.
Qed.

(** X11: the value returned by [tock] tells whether a quality has changed:
    when it is [false] the qualities are those it was given, and when it is
    [true] some model of the list has a new quality. *)
Theorem tock_changed (enabled : bool) (camera : option (Vector3 -> Vector3))
        (components : list CVModel2) (s : Qualities) :
  NoDup (map name components) ->
  let r := DerivativesController.tock enabled camera components s in
  (snd r = false -> fst r = s) /\
  (snd r = true -> exists m, In m components /\ fst r (name m) <> s (name m)).
Proof.
  intros N r. unfold r, DerivativesController.tock.
  destruct enabled; [|split; [reflexivity|discriminate]].
  destruct camera as [project|]; [|split; [reflexivity|discriminate]].
  set (models := sort DerivativesController.descending
                      (map (DerivativesController.entryOf project) components)).
  assert (N' : NoDup (map (fun e => name (DerivativesController.model e)) models)).
  { apply (Permutation_NoDup (tock_names project components) N). }
  destruct (tockLoop_flag models 0 s N') as [A B]. split; [exact A|].
  intros H. destruct (B H) as (e & He & D).
  exists (DerivativesController.model e). split; [|exact D].
  apply (Permutation_in e (Permutation_sym (sort_perm _ _))) in He.
  apply in_map_iff in He. destruct He as (m & <- & Hm). exact Hm.
Qed.

Lemma tock_changed_witness :
  exists m, In m sceneModels /\
    fst (DerivativesController.tock true (Some identityCamera) sceneModels sceneQualities) (name m)
    <> sceneQualities (name m).
Proof.
  assert (N : NoDup (map name sceneModels)).
  { vm_compute. repeat constructor; cbn [In]; intuition discriminate. }
  refine (proj2 (tock_changed true (Some identityCamera) sceneModels sceneQualities N) _).
  vm_compute. reflexivity.
Defined.

(** * Serialisation of the orbit navigation *)

Section NavigationFacts.
Import NavigationData.

Lemma replaceNull_id (vector : NumberArray) (r : JSNumber) :
  Forall (fun e => e <> None) vector -> _replaceNull vector r = vector.
Proof.
  induction 1 as [|e l He _ IH]; [reflexivity|].
  cbn [_replaceNull map]. fold (_replaceNull l r). rewrite IH.
  destruct e; [reflexivity|contradiction].
Qed.

Lemma replaceNull_no_null (vector : NumberArray) (r : JSNumber) :
  Forall (fun e => e <> None) (_replaceNull vector r).
Proof.
  induction vector as [|e l IH]; cbn [_replaceNull map]; constructor.
  - destruct e; discriminate.
  - exact IH.
Qed.

(** X12: [_replaceNull] keeps the length of the array and every entry that
    is not [null], puts the replacement at every [null] entry and leaves no
    [null]; applied again, or to an array without [null], it changes
    nothing. *)
Theorem replaceNull_spec (vector : NumberArray) (r : JSNumber) :
  List.length (_replaceNull vector r) = List.length vector /\
  (forall i, nth_error (_replaceNull vector r) i
             = match nth_error vector i with
               | Some None => Some (Some r)
               | other => other
               end) /\
  Forall (fun e => e <> None) (_replaceNull vector r) /\
  (forall r', _replaceNull (_replaceNull vector r) r' = _replaceNull vector r) /\
  (Forall (fun e => e <> None) vector -> _replaceNull vector r = vector).
Proof.
  split; [apply length_map|]. split.
  { intros i. unfold _replaceNull. rewrite nth_error_map.
    destruct (nth_error vector i) as [[n|]|]; reflexivity. }
  split; [apply replaceNull_no_null|]. split.
  - intros r'. apply replaceNull_id, replaceNull_no_null.
  - apply replaceNull_id.
Qed.

Lemma replaceNull_spec_witness :
  _replaceNull [num 1; num 2] NegInfinity = [num 1; num 2].
Proof.
  apply (replaceNull_spec [num 1; num 2] NegInfinity).
  repeat constructor; discriminate.
Defined.

(** X13: reading back what [toData] wrote restores the eleven inputs that
    are serialised, provided the four limits hold no [null]; the other
    inputs are left as they were. *)
Theorem navigation_roundtrip (prev ins : Ins.t) :
  Forall (fun e => e <> None) (Ins.minOrbit ins) ->
  Forall (fun e => e <> None) (Ins.minOffset ins) ->
  Forall (fun e => e <> None) (Ins.maxOrbit ins) ->
  Forall (fun e => e <> None) (Ins.maxOffset ins) ->
  fromData prev (Some (toData ins))
  = Ins.mk (Ins.enabled ins) (Ins.pointerEnabled prev) (Ins.promptEnabled prev)
           (Ins.isInUse prev) (Ins.preset prev) (Ins.lightsFollowCamera ins)
           (Ins.autoRotation ins) (Ins.autoRotationSpeed prev) (Ins.autoZoom ins)
           (Ins.orbit ins) (Ins.offset ins) (Ins.pivot ins)
           (Ins.minOrbit ins) (Ins.minOffset ins) (Ins.maxOrbit ins) (Ins.maxOffset ins)
           (Ins.keyNavActive prev) (Ins.promptActive prev) /\
  fromData ins (Some (toData ins)) = ins.
Proof.
  intros A B C D.
  assert (G : forall p, fromData p (Some (toData ins))
    = Ins.mk (Ins.enabled ins) (Ins.pointerEnabled p) (Ins.promptEnabled p)
           (Ins.isInUse p) (Ins.preset p) (Ins.lightsFollowCamera ins)
           (Ins.autoRotation ins) (Ins.autoRotationSpeed p) (Ins.autoZoom ins)
           (Ins.orbit ins) (Ins.offset ins) (Ins.pivot ins)
           (Ins.minOrbit ins) (Ins.minOffset ins) (Ins.maxOrbit ins) (Ins.maxOffset ins)
           (Ins.keyNavActive p) (Ins.promptActive p)).
  { intros p. unfold fromData, toData.
    cbn [INavigation.orbit INavigation.enabled INavigation.autoZoom
         INavigation.autoRotation INavigation.lightsFollowCamera notNot
         IOrbit.orbit IOrbit.offset IOrbit.pivot IOrbit.minOrbit IOrbit.maxOrbit
         IOrbit.minOffset IOrbit.maxOffset].
    rewrite !replaceNull_id by assumption. reflexivity. }
  split; [apply G|]. rewrite G. destruct ins; reflexivity.
Qed.

Lemma navigation_roundtrip_witness :
  fromData declared (Some (toData declared)) = declared.
Proof.
  apply (navigation_roundtrip declared declared);
    repeat constructor; discriminate.
Defined.

Lemma arrayViaJSON_finite (v : NumberArray) :
  Forall finiteEntry v -> arrayViaJSON v = v.
Proof.
  induction 1 as [|e l [q ->] _ IH]; [reflexivity|].
  cbn [arrayViaJSON map]. fold (arrayViaJSON l). now rewrite IH.
Qed.

Lemma replaceNull_viaJSON (inf : JSNumber) (v : NumberArray) :
  (forall q, inf <> Finite q) ->
  Forall (finiteOr inf) v -> _replaceNull (arrayViaJSON v) inf = v.
Proof.
  intros N. induction 1 as [|e l He _ IH]; [reflexivity|].
  cbn [arrayViaJSON _replaceNull map]. fold (arrayViaJSON l).
  fold (_replaceNull (arrayViaJSON l) inf). rewrite IH.
  destruct He as [->|[q ->]]; [|reflexivity].
  destruct inf; [exfalso; now apply (N q)|reflexivity|reflexivity].
Qed.

(** X14: the navigation settings survive a passage through JSON, where a
    number that is not finite is written as [null]: when orbit, offset and
    pivot hold finite numbers, the lower limits finite numbers or
    [-Infinity] and the upper limits finite numbers or [Infinity], reading
    back the serialised data restores the inputs. *)
Theorem navigation_roundtrip_json (ins : Ins.t) :
  Forall finiteEntry (Ins.orbit ins) ->
  Forall finiteEntry (Ins.offset ins) ->
  Forall finiteEntry (Ins.pivot ins) ->
  Forall (finiteOr NegInfinity) (Ins.minOrbit ins) ->
  Forall (finiteOr NegInfinity) (Ins.minOffset ins) ->
  Forall (finiteOr PosInfinity) (Ins.maxOrbit ins) ->
  Forall (finiteOr PosInfinity) (Ins.maxOffset ins) ->
  fromData ins (Some (viaJSON (toData ins))) = ins.
Proof.
  intros O F P A B C D. unfold fromData, viaJSON, toData.
  cbn [INavigation.orbit INavigation.enabled INavigation.autoZoom
       INavigation.autoRotation INavigation.lightsFollowCamera INavigation.type notNot
       IOrbit.orbit IOrbit.offset IOrbit.pivot IOrbit.minOrbit IOrbit.maxOrbit
       IOrbit.minOffset IOrbit.maxOffset].
  rewrite !arrayViaJSON_finite by assumption.
  rewrite !replaceNull_viaJSON by (assumption || discriminate).
  destruct ins; reflexivity.
Qed.

Lemma navigation_roundtrip_json_witness :
  fromData declared (Some (viaJSON (toData declared))) = declared.
Proof.
  apply (navigation_roundtrip_json declared);
    repeat constructor;
    first [ left; reflexivity | right; eexists; reflexivity | eexists; reflexivity ].
Defined.

End NavigationFacts.

(** * Measurement markers and tape *)

Section TapeFacts.
Import String.
Local Open Scope string_scope.

(** X15: [createMarker] called with a number builds the marker of the
    style that has this number, and a sphere for any other number; called
    with a name it builds the marker of that name, and a sphere for a name
    that is none of the five. *)
Theorem createMarker_total (index : Z) (v : string) (style : Marker.EMarkerStyle) :
  Marker.createMarker (inr (Marker.styleIndex style)) = Marker.markerOf style /\
  Marker.createMarker (inl (Marker.styleName style)) = Marker.markerOf style /\
  ((index < 0 \/ 5 <= index)%Z -> Marker.createMarker (inr index) = Marker.SphereMarker) /\
  (~ In v Marker.markerStyleValues -> Marker.createMarker (inl v) = Marker.SphereMarker).
Proof.
  split; [destruct style; reflexivity|].
  split; [destruct style; reflexivity|]. split.
  - intros H. unfold Marker.createMarker, Marker.getMarkerStyleValue, Marker.at_.
    destruct (Z.ltb_spec index 0) as [L|L]; [reflexivity|].
    assert (E : nth_error Marker.markerStyleValues (Z.to_nat index) = None).
    { apply nth_error_None. cbn [List.length Marker.markerStyleValues]. lia. }
    rewrite E. reflexivity.
  - intros H. unfold Marker.createMarker.
    cbn [In Marker.markerStyleValues] in H.
    repeat match goal with
    | |- context [String.eqb v ?c] =>
        destruct (String.eqb_spec v c) as [->|?]; [exfalso; apply H; tauto|]
    end.
    reflexivity.
Qed.

Lemma createMarker_total_witness :
  Marker.createMarker (inr 7%Z) = Marker.SphereMarker /\
  Marker.createMarker (inl "Cone") = Marker.SphereMarker.
Proof.
  pose proof (createMarker_total 7 "Cone" Marker.Sphere) as (_ & _ & A & B).
  split.
  - apply A. right. lia.
  - apply B. cbn [In Marker.markerStyleValues]. intuition discriminate.
Defined.

Lemma indexOfFrom_absent (l : list string) (i : Z) (v : string) :
  ~ In v l -> Marker.indexOfFrom i l v = (-1)%Z.
Proof.
  revert i. induction l as [|h l IH]; intros i H; cbn [Marker.indexOfFrom]; [reflexivity|].
  destruct (String.eqb_spec h v) as [->|N]; [exfalso; apply H; now left|].
  apply IH. intros K. apply H. now right.
Qed.

(** X16: the marker style written in the tape data is decoded by
    [fromData] and honoured by [recreateMarkers]: the name of a style sets
    the input to the number of that style, and the markers rebuilt are of
    that style; a name that is none of the five, an empty name or a missing
    one leaves the style as it was. *)
Theorem tape_markerStyle (tape : Tape.t) (data : Tape.ITape) (style : Marker.EMarkerStyle)
        (v : string) :
  (Tape.d_markerStyle data = Some (Marker.styleName style) ->
   Tape.markerStyle (Tape.fromData tape data) = Marker.styleIndex style /\
   Tape.recreateMarkers (Tape.fromData tape data) = Marker.markerOf style) /\
  (Tape.d_markerStyle data = None \/
   (Tape.d_markerStyle data = Some v /\ ~ In v Marker.markerStyleValues) ->
   Tape.markerStyle (Tape.fromData tape data) = Tape.markerStyle tape).
Proof.
  split.
  - intros H. unfold Tape.recreateMarkers, Tape.fromData. rewrite H.
    cbn [Tape.markerStyle]. destruct style; split; reflexivity.
  - intros [H|[H N]]; unfold Tape.fromData; rewrite H; cbn [Tape.markerStyle];
      [reflexivity|].
    destruct (String.eqb v ""); [reflexivity|].
    unfold Marker.indexOf. rewrite indexOfFrom_absent by exact N. reflexivity.
Qed.

Lemma tape_markerStyle_witness :
  let data := Tape.mkData true None None None None (Some "Disc") in
  let tape := Tape.mk false false (mkVector3 0 0 0) (mkVector3 1 0 0) (mkVector3 0 0 0)
                      (mkVector3 1 0 0) 0 Tape.SetStart false false false in
  Tape.recreateMarkers (Tape.fromData tape data) = Marker.DiscMarker.
Proof.
  intros data tape.
  exact (proj2 (proj1 (tape_markerStyle tape data Marker.Disc "") eq_refl)).
Defined.

Lemma onPointerUp_ignored (events : list Tape.IPointerEvent) (tape : Tape.t) :
  Forall Tape.ignored events -> fold_left Tape.onPointerUp events tape = tape.
Proof.
  induction 1 as [|e l He _ IH]; cbn [fold_left]; [reflexivity|].
  replace (Tape.onPointerUp tape e) with tape; [exact IH|].
  unfold Tape.onPointerUp. destruct He as [-> | ->]; [reflexivity|].
  now rewrite orb_true_r.
Qed.

(** X17: a measurement takes two clicks on a model.  From the state
    [SetStart], two pointer-up events on a model, in the midst of any number
    of drags and of events off the models, leave the tape with the first
    click as its start, the second as its end, both markers and the line
    visible, and the state [SetStart] again; after the first click alone the
    end marker and the line are hidden. *)
Theorem tape_two_clicks (tape : Tape.t) (first second : Tape.IPointerEvent)
        (before between after : list Tape.IPointerEvent) :
  Tape.state tape = Tape.SetStart ->
  ~ Tape.ignored first -> ~ Tape.ignored second ->
  Forall Tape.ignored before -> Forall Tape.ignored between -> Forall Tape.ignored after ->
  fold_left Tape.onPointerUp (before ++ first :: between) tape
  = Tape.mk (Tape.visible tape) (Tape.enabled tape)
            (Tape.position first) (Tape.normal first)
            (Tape.endPosition tape) (Tape.endDirection tape)
            (Tape.markerStyle tape) Tape.SetEnd true false false /\
  fold_left Tape.onPointerUp (before ++ first :: between ++ second :: after) tape
  = Tape.mk (Tape.visible tape) (Tape.enabled tape)
            (Tape.position first) (Tape.normal first)
            (Tape.position second) (Tape.normal second)
            (Tape.markerStyle tape) Tape.SetStart true true true.
Proof.
  intros S F1 F2 B M A.
  assert (V : forall e (t : Tape.t), ~ Tape.ignored e ->
              (Tape.isDragging e || negb (Tape.isModel (Tape.component e)))%bool = false).
  { intros e t N. unfold Tape.ignored in N.
    destruct (Tape.isDragging e); [exfalso; apply N; now left|].
    destruct (Tape.isModel (Tape.component e)); [reflexivity|].
    exfalso; apply N; now right. }
  assert (One : fold_left Tape.onPointerUp (before ++ first :: between) tape
                = Tape.mk (Tape.visible tape) (Tape.enabled tape)
                    (Tape.position first) (Tape.normal first)
                    (Tape.endPosition tape) (Tape.endDirection tape)
                    (Tape.markerStyle tape) Tape.SetEnd true false false).
  { rewrite fold_left_app, (onPointerUp_ignored before) by exact B.
    cbn [fold_left]. rewrite onPointerUp_ignored by exact M.
    unfold Tape.onPointerUp. now rewrite (V first tape F1), S. }
  split; [exact One|].
  replace (before ++ first :: between ++ second :: after)%list
    with ((before ++ first :: between) ++ second :: after)%list
    by (rewrite <- app_assoc; reflexivity).
  rewrite fold_left_app, One. cbn [fold_left].
  rewrite onPointerUp_ignored by exact A.
  unfold Tape.onPointerUp. rewrite (V second tape F2). reflexivity.
Qed.

Lemma tape_two_clicks_witness :
  let tape := Tape.mk true true (mkVector3 0 0 0) (mkVector3 1 0 0) (mkVector3 0 0 0)
                      (mkVector3 1 0 0) 0 Tape.SetStart false false false in
  let click p := Tape.mkEvent false (Some Tape.Model) p (mkVector3 0 1 0) in
  let drag := Tape.mkEvent true (Some Tape.Model) (mkVector3 9 9 9) (mkVector3 0 1 0) in
  Tape.endPosition
    (fold_left Tape.onPointerUp
       ([drag] ++ click (mkVector3 1 2 3) :: [drag] ++ click (mkVector3 4 5 6) :: [])
       tape)
  = mkVector3 4 5 6.
Proof.
  intros tape click drag.
  assert (N1 : ~ Tape.ignored (click (mkVector3 1 2 3)))
    by (intros [H|H]; discriminate H).
  assert (N2 : ~ Tape.ignored (click (mkVector3 4 5 6)))
    by (intros [H|H]; discriminate H).
  assert (D : Forall Tape.ignored [drag]) by (constructor; [left; reflexivity|constructor]).
  rewrite (proj2 (tape_two_clicks tape (click (mkVector3 1 2 3)) (click (mkVector3 4 5 6))
                    [drag] [drag] [] eq_refl N1 N2 D D (Forall_nil _))).
  reflexivity.
Defined.

End TapeFacts.

(** * The base name of the document *)

Section DocumentFacts.
Import String.
Local Open Scope string_scope.

Lemma substring_prefix (n : nat) (s : string) :
  exists rest, s = substring 0 n s ++ rest.
Proof.
  revert s. induction n as [|n IH]; intros s.
  - exists s. destruct s; reflexivity.
  - destruct s as [|c s].
    + exists "". reflexivity.
    + destruct (IH s) as (rest & E). exists rest. cbn [substring append].
      now rewrite <- E.
Qed.

Lemma substring_split (m n : nat) (s : string) :
  String.length (substring m n s) = n ->
  exists rest, s = substring 0 m s ++ substring m n s ++ rest.
Proof.
  revert s. induction m as [|m IH]; intros s H.
  - destruct (substring_prefix n s) as (rest & E). exists rest.
    replace (substring 0 0 s) with "" by (destruct s; reflexivity). exact E.
  - destruct s as [|c s].
    + cbn [substring] in *. exists "". cbn in H. subst n. reflexivity.
    + cbn [substring] in H. destruct (IH s H) as (rest & E). exists rest.
      cbn [substring append]. now rewrite <- E.
Qed.

Lemma substring_app_at (a m r : string) :
  substring (String.length a) (String.length m) (a ++ m ++ r) = m.
Proof.
  induction a as [|c a IH]; cbn [String.length append substring].
  - induction m as [|d m IHm]; cbn [String.length append].
    + destruct r; reflexivity.
    + cbn [substring]. now rewrite IHm.
  - exact IH.
Qed.

Lemma substring_length_le (n : nat) (s : string) :
  (String.length (substring 0 n s) <= n)%nat.
Proof.
  revert s. induction n as [|n IH]; intros s.
  - destruct s; cbn; lia.
  - destruct s as [|c s]; cbn [substring String.length]; [lia|].
    specialize (IH s). lia.
Qed.

(** X18: [assetBaseName] is the part of the asset path before the first
    ".svx.json": when the path holds ".svx.json", the base name followed by
    ".svx.json" starts the path and no occurrence starts earlier; when it
    does not, the base name is the path itself. *)
Theorem assetBaseName_spec (assetPath : string) :
  (forall a r, assetPath = a ++ ".svx.json" ++ r ->
     (exists r', assetPath = Document.assetBaseName assetPath ++ ".svx.json" ++ r') /\
     (String.length (Document.assetBaseName assetPath) <= String.length a)%nat) /\
  ((forall a r, assetPath <> a ++ ".svx.json" ++ r) ->
   Document.assetBaseName assetPath = assetPath).
Proof.
  unfold Document.assetBaseName. cbv zeta.
  destruct (index 0 ".svx.json" assetPath) as [i|] eqn:E.
  - pose proof (index_correct1 _ _ _ _ E) as C1.
    assert (L : String.length (substring i (String.length ".svx.json") assetPath)
                = String.length ".svx.json") by now rewrite C1.
    destruct (substring_split i _ assetPath L) as (rest & S). rewrite C1 in S.
    split.
    + intros a r H. split; [exists rest; exact S|].
      destruct (Nat.le_gt_cases i (String.length a)) as [Le|Gt].
      * pose proof (substring_length_le i assetPath). lia.
      * exfalso. apply (index_correct2 _ _ _ _ E (String.length a)); [lia|exact Gt|].
        rewrite H. apply substring_app_at.
    + intros N. exfalso. apply (N _ _ S).
  - split; [|reflexivity].
    intros a r H. exfalso.
    apply (index_correct3 0 (String.length a) _ _ E); [discriminate|lia|].
    rewrite H. apply substring_app_at.
Qed.

Lemma assetBaseName_spec_witness :
  (exists r', "models/scene.svx.json"
              = Document.assetBaseName "models/scene.svx.json" ++ ".svx.json" ++ r') /\
  Document.assetBaseName "scene.json" = "scene.json".
Proof.
  split.
  - apply (proj1 (assetBaseName_spec "models/scene.svx.json") "models/scene" "" eq_refl).
  - apply (proj2 (assetBaseName_spec "scene.json")).
    intros a r H.
    assert (I : index 0 ".svx.json" "scene.json" = None) by reflexivity.
    apply (index_correct3 0 (String.length a) _ _ I); [discriminate|lia|].
    rewrite H. apply substring_app_at.
Defined.

End DocumentFacts.

(** * The budget after a whole pass *)

Lemma sceneCost_perm (s : Qualities) (l l' : list CVModel2) :
  Permutation l l' -> sceneCost s l = sceneCost s l'.
Proof.
  unfold sceneCost.
  induction 1 as [|m l l' _ IH|a b l|l1 l2 l3 _ IH1 _ IH2]; cbn [fold_right]; lia.
Qed.

Lemma sceneCost_assigned (s : Qualities) (l : list Entry) :
  Forall (fun e => s (name (model e)) = quality e) l ->
  sceneCost s (map model l) = totalCost l.
Proof.
  unfold sceneCost, totalCost.
  induction 1 as [|e l He _ IH]; [reflexivity|].
  cbn [map fold_right]. now rewrite He, IH.
Qed.

Lemma assigned_models (l : list Entry) :
  map model (assigned (allocate l)) = map model l.
Proof.
  pose proof (allocate_downgradeOf l) as D. symmetry.
  induction D as [|a b l1 l2 H D IH]; [reflexivity|].
  cbn [map]. destruct H as (-> & _). now rewrite IH.
Qed.

(** X19: the budget holds for the tiers the models are left at.  When the
    models are distinct, the collaborator returns each tier it is asked
    for, and the reservation for the models fits in 16384*16384, then after
    [tick] the costs of the models' tiers sum to at most 16384*16384 minus
    the remaining reservation, and no model is above the tier the
    classifier proposed for it. *)
Theorem tick_budget (project : Vector3 -> Vector3) (components : list CVModel2)
        (s : Qualities) :
  NoDup (map name components) ->
  (forall m, In m components -> forall q, select m q = Some q) ->
  (initialReserved (List.length components) <= 16384 * 16384)%Z ->
  let s' := tick project components s in
  (sceneCost s' components
   <= 16384 * 16384
      - (initialReserved (List.length components)
         - Z.of_nat (List.length components) * (512 * 512)))%Z /\
  (forall m, In m components ->
     quality_le (s' (name m))
                (getQuality (s (name m)) (boxWeight (projectBox project (boundingBox m))))).
Proof.
  intros N X F s'.
  set (entries := map (entryOf project s) components).
  set (sorted := sort ascending entries).
  pose proof (tick_assigns project components s N X) as TA.
  fold s' entries sorted in TA.
  assert (L : List.length sorted = List.length components).
  { unfold sorted, entries. now rewrite sort_length, length_map. }
  assert (P : Permutation components (map model (assigned (allocate sorted)))).
  { rewrite assigned_models.
    replace components with (map model entries) at 1
      by (unfold entries; rewrite map_map; apply map_id).
    apply Permutation_map, sort_perm. }
  split.
  - rewrite (sceneCost_perm s' _ _ P), (sceneCost_assigned s' _ TA).
    destruct (assigned_fold sorted (allocStart (List.length sorted))) as (l' & E & _ & T & R).
    pose proof (allocate_fits sorted (allocStart (List.length sorted))) as Fit.
    rewrite allocate_unfold, E. cbn [allocStart assigned app].
    cbn [allocStart texSize reserved] in T, R, Fit. rewrite T, R in Fit.
    rewrite L in *. lia.
  - intros m Hm.
    pose proof (allocate_downgradeOf sorted) as D.
    assert (Hin : In m (map model (assigned (allocate sorted))))
      by (apply (Permutation_in m P Hm)).
    apply in_map_iff in Hin. destruct Hin as (a & <- & Ha).
    rewrite (proj1 (Forall_forall _ _) TA a Ha).
    assert (G : Forall (fun e => quality e
                         = getQuality (s (name (model e)))
                             (boxWeight (projectBox project (boundingBox (model e)))))
                       sorted).
    { apply (Permutation_Forall (sort_perm ascending entries)).
      apply Forall_forall. intros e He. unfold entries in He.
      apply in_map_iff in He. destruct He as (m' & <- & _). reflexivity. }
    clear - D G Ha. induction D as [|e b l1 l2 H D IH]; [destruct Ha|].
    inversion G as [|e' l' Ge Gl]; subst. destruct Ha as [<-|Ha]; [|now apply IH].
    destruct H as (-> & _ & _ & _ & Hq). now rewrite <- Ge.
Qed.

Lemma tick_budget_witness :
  let components := map (fun n => mkModel n boxFull exactSelect) (seq 1 15) in
  (sceneCost (tick identityCamera components sceneQualities) components
   <= 16384 * 16384 - (initialReserved 15 - 15 * (512 * 512)))%Z.
Proof.
  intros components.
  assert (N : NoDup (map name components)).
  { vm_compute. repeat constructor; cbn [In]; intuition discriminate. }
  assert (X : forall m, In m components -> forall q, select m q = Some q).
  { intros m Hm q. apply in_map_iff in Hm. destruct Hm as (n & <- & _). reflexivity. }
  assert (F : (initialReserved (List.length components) <= 16384 * 16384)%Z)
    by (vm_compute; discriminate).
  exact (proj1 (tick_budget identityCamera components sceneQualities N X F)).
Defined.
